(** * DocItemLoader: resolution of {@inheritdoc} references

    A shallow embedding of [api-extractor/src/DocItemLoader.ts]: the class
    [DocItemLoader] with its three methods [getItem], [getPackage] and
    [loadPackageIntoCache], the Node [path] functions it calls, and the
    JavaScript object operations ([in], property read, [Map]) it relies on.

    The loader is stateful (a cache), reads the file system, reports through a
    callback and may throw.  All of that is made explicit: a method is a
    function from a state to an outcome (returned value or thrown error) and a
    new state; the state carries the loader's fields and a world with the files
    on disk, a counter that gives every parsed document its own identity, and
    the trace of observable events in program order. *)

From Stdlib Require Import String Ascii List Bool Arith Lia.
From stdpp Require Import gmap strings.
Import ListNotations.

Local Open Scope string_scope.
Local Open Scope list_scope.

(** ** JavaScript strings *)

Module Js.

(** [s.split(sep)] for a one-character separator: always at least one piece. *)
Fixpoint split (sep : ascii) (s : string) : list string :=
  match s with
  | EmptyString => [EmptyString]
  | String c rest =>
      if Ascii.eqb c sep then EmptyString :: split sep rest
      else match split sep rest with
           | piece :: pieces => String c piece :: pieces
           | [] => [String c EmptyString]
           end
  end.

(** The one-character string that holds a double quote. *)
Definition quote : string := String (ascii_of_nat 34) EmptyString.

(** [s.startsWith(prefix)]. *)
Fixpoint startsWith (prefix s : string) : bool :=
  match prefix, s with
  | EmptyString, _ => true
  | String _ _, EmptyString => false
  | String a prefix', String b s' => Ascii.eqb a b && startsWith prefix' s'
  end.

(** [hay.includes(needle)]. *)
Fixpoint includes (needle hay : string) : bool :=
  startsWith needle hay ||
  match hay with
  | EmptyString => false
  | String _ rest => includes needle rest
  end.

(** [array.shift()]: the first element, [undefined] on the empty array. *)
Definition shift (xs : list string) : option string := head xs.

(** ToBoolean on a value that is a string or [undefined]. *)
Definition truthy (v : option string) : bool :=
  match v with
  | Some s => negb (String.eqb s EmptyString)
  | None => false
  end.

(** A value that is a string or [undefined], inside a template literal. *)
Definition toString (v : option string) : string :=
  match v with
  | Some s => s
  | None => "undefined"
  end.

(** Modelled from the spec: the [exports] section of a package and the
    [members] section of a class-like item are mappings from a name to an
    item, with unique keys and nothing but their own keys; the parser that
    builds them, [JsonFile.loadJsonFile], is not part of the sources. *)
Definition object (A : Type) : Type := list (string * A).

Fixpoint ownProperty {A : Type} (key : string) (o : object A) : option A :=
  match o with
  | [] => None
  | (k, v) :: o' => if String.eqb key k then Some v else ownProperty key o'
  end.

(** What a property read [o[key]] yields. *)
Inductive property (A : Type) : Type :=
| Own (value : A)            (* the value stored under the key *)
| Absent.                    (* undefined *)
Arguments Own {A} value.
Arguments Absent {A}.

(** [key in o]: the mapping has the key. *)
Definition has {A : Type} (key : string) (o : object A) : bool :=
  match ownProperty key o with
  | Some _ => true
  | None => false
  end.

(** [o[key]]. *)
Definition get {A : Type} (o : object A) (key : string) : property A :=
  match ownProperty key o with
  | Some v => Own v
  | None => Absent
  end.

End Js.

(** ** Node's [path] module (POSIX flavour) and [os.EOL] *)

Module Path.

Definition EOL : string := String (ascii_of_nat 10) EmptyString.

Definition isAbsolute (p : string) : bool :=
  match p with
  | String c _ => Ascii.eqb c "/"
  | EmptyString => false
  end.

Fixpoint endsWithSlash (p : string) : bool :=
  match p with
  | EmptyString => false
  | String c EmptyString => Ascii.eqb c "/"
  | String _ rest => endsWithSlash rest
  end.

(** [normalizeArray(parts, allowAboveRoot)]; [res] is kept in reverse. *)
Fixpoint normalizeArray_loop (parts : list string) (allowAboveRoot : bool)
         (res : list string) : list string :=
  match parts with
  | [] => rev res
  | p :: parts' =>
      if String.eqb p EmptyString || String.eqb p "." then
        normalizeArray_loop parts' allowAboveRoot res
      else if String.eqb p ".." then
        match res with
        | top :: below =>
            if negb (String.eqb top "..") then
              normalizeArray_loop parts' allowAboveRoot below
            else if allowAboveRoot then
              normalizeArray_loop parts' allowAboveRoot (".." :: res)
            else normalizeArray_loop parts' allowAboveRoot res
        | [] =>
            if allowAboveRoot then
              normalizeArray_loop parts' allowAboveRoot [".."]
            else normalizeArray_loop parts' allowAboveRoot res
        end
      else normalizeArray_loop parts' allowAboveRoot (p :: res)
  end.

Definition normalizeArray (parts : list string) (allowAboveRoot : bool) : list string :=
  normalizeArray_loop parts allowAboveRoot [].

(** [path.normalize(p)]. *)
Definition normalize (p : string) : string :=
  let absolute := isAbsolute p in
  let trailingSlash := endsWithSlash p in
  let body := String.concat "/" (normalizeArray (Js.split "/" p) (negb absolute)) in
  let body := if String.eqb body EmptyString && negb absolute then "." else body in
  let body := if negb (String.eqb body EmptyString) && trailingSlash then body +:+ "/" else body in
  (if absolute then "/" else EmptyString) +:+ body.

(** The loop of [path.join] over string arguments: empty segments are
    skipped, the others are glued with a slash. *)
Fixpoint join_loop (args : list string) (joined : string) : string :=
  match args with
  | [] => joined
  | segment :: args' =>
      if String.eqb segment EmptyString then join_loop args' joined
      else if String.eqb joined EmptyString then join_loop args' segment
      else join_loop args' (joined +:+ "/" +:+ segment)
  end.

(** [path.join(...args)] when every argument is a string. *)
Definition joinStrings (args : list string) : string :=
  normalize (join_loop args EmptyString).

(** The argument check of [path.join]: every argument must be a string;
    [None] is an argument that is [undefined]. *)
Fixpoint assertStrings (args : list (option string)) : option (list string) :=
  match args with
  | [] => Some []
  | None :: _ => None
  | Some segment :: args' =>
      match assertStrings args' with
      | Some segments => Some (segment :: segments)
      | None => None
      end
  end.

(** [path.join(...args)]; the result [None] stands for the TypeError that
    [path.join] throws when an argument is not a string. *)
Definition join (args : list (option string)) : option string :=
  match assertStrings args with
  | Some segments => Some (joinStrings segments)
  | None => None
  end.

(** [path.basename(p)]: the last non-empty component. *)
Definition basename (p : string) : string :=
  List.last (List.filter (fun part => negb (String.eqb part EmptyString)) (Js.split "/" p)) EmptyString.

End Path.


(** ** Data model *)

Local Set Warnings "-register-all".

(** Modelled from the spec: [IDocItem.ts] is not part of the sources.  A
    documentation item has a kind; only a class-like item carries a [members]
    mapping, for any other item the property [members] is [undefined]. *)
Inductive IDocItem : Type :=
| DocItem (kind : string) (members : option (Js.object IDocItem)).

Definition kind (item : IDocItem) : string :=
  match item with DocItem k _ => k end.

Definition members (item : IDocItem) : option (Js.object IDocItem) :=
  match item with DocItem _ ms => ms end.

(** Modelled from the spec: a package manifest is an object with a keyed
    [exports] section. *)
Record IDocPackage : Type := { exports : Js.object IDocItem }.

(** Modelled from the spec: the input shape
    [{ scopeName?: string, packageName: string, exportName: string, memberName?: string }];
    [None] is a property that is absent ([undefined]). *)
Record IApiDefinitionReference : Type := {
  scopeName : option string;
  packageName : string;
  exportName : string;
  memberName : option string
}.

(** What is stored at a path.  A JSON document is seen through the interface
    [IDocPackage] that [loadPackageIntoCache] casts it to, together with the
    detail that validation against the installed [api-json-schema.json]
    reports for it ([None]: the document conforms). *)
Inductive FileContent : Type :=
| NotJson
| Json (schemaError : option string) (document : IDocPackage).

(** An object on the heap, as built by the JSON parser: [oid] is its identity. *)
Record JsonObject : Type := {
  oid : nat;
  schemaError : option string;
  document : IDocPackage
}.

(** The value of [docPackage.exports[name]] or of [item.members[name]]: an
    item of the manifest, or [undefined]. *)
Definition ItemValue : Type := Js.property IDocItem.

(** [(docItem as IDocClass).members]: the cast is unchecked, the property is
    [undefined] on an item that is not class-like. *)
Definition membersOf (docItem : ItemValue) : option (Js.object IDocItem) :=
  match docItem with
  | Js.Own item => members item
  | Js.Absent => None
  end.

(** ** State, events and errors *)

Inductive Event : Type :=
| ExistsSync (path : string)      (* fsx.existsSync(path) *)
| ReadFile (path : string)        (* the read made by JsonFile.loadJsonFile(path) *)
| ConsoleLog (text : string)      (* console.log(text) *)
| Reported (message : string).    (* the recording callback received message *)

Inductive JsError : Type :=
| Error (message : string)        (* new Error(message) *)
| TypeError                       (* thrown by the runtime: path.join, the in operator *)
| FileNotFound (path : string)    (* JsonFile.loadJsonFile on a missing file *)
| JsonParseError (path : string). (* JsonFile.loadJsonFile on malformed JSON *)

(** The file system, the module directory [__dirname], the allocator of object
    identities and the events observed so far (oldest first). *)
Record World : Type := {
  files : gmap string FileContent;
  dirname : string;
  nextOid : nat;
  trace : list Event
}.

(** The fields of a [DocItemLoader] instance. *)
Record DocItemLoader : Type := {
  _cache : gmap string JsonObject;
  _projectFolder : string
}.

Record State : Type := { this : DocItemLoader; world : World }.

Inductive Outcome (A : Type) : Type :=
| Returned (value : A)
| Thrown (error : JsError).
Arguments Returned {A} value.
Arguments Thrown {A} error.

(** A method body: it runs in a state and ends by returning or throwing. *)
Definition M (A : Type) : Type := State -> Outcome A * State.

Definition ret {A : Type} (a : A) : M A := fun st => (Returned a, st).

Definition throw {A : Type} (e : JsError) : M A := fun st => (Thrown e, st).

Definition bind {A B : Type} (m : M A) (k : A -> M B) : M B :=
  fun st =>
    match m st with
    | (Returned a, st') => k a st'
    | (Thrown e, st') => (Thrown e, st')
    end.

Declare Scope js_scope.
Delimit Scope js_scope with js.
Notation "x <- m ;; k" := (bind m (fun x => k))
  (at level 100, m at next level, right associativity) : js_scope.
Notation "m ;; k" := (bind m (fun _ => k))
  (at level 100, right associativity) : js_scope.
Local Open Scope js_scope.

Definition emit (e : Event) : M unit :=
  fun st =>
    let w := world st in
    (Returned tt,
     {| this := this st;
        world := {| files := files w; dirname := dirname w;
                    nextOid := nextOid w; trace := trace w ++ [e] |} |}).

(** [fsx.existsSync(path)]. *)
Definition existsSync (path : string) : M bool :=
  emit (ExistsSync path) ;;
  fun st => (Returned (bool_decide (is_Some (files (world st) !! path))), st).

(** The JSON parser builds a fresh object. *)
Definition allocate (err : option string) (doc : IDocPackage) : M JsonObject :=
  fun st =>
    let w := world st in
    (Returned {| oid := nextOid w; schemaError := err; document := doc |},
     {| this := this st;
        world := {| files := files w; dirname := dirname w;
                    nextOid := S (nextOid w); trace := trace w |} |}).

(** [this._cache.has(key)] followed by [this._cache.get(key)]. *)
Definition cacheGet (key : string) : M (option JsonObject) :=
  fun st => (Returned (_cache (this st) !! key), st).

(** [this._cache.set(key, value)]; the key is the result of [shift()], which
    is [undefined] on an empty array only, and no entry is modelled then. *)
Definition cacheSet (key : option string) (value : JsonObject) : M unit :=
  fun st =>
    match key with
    | Some k =>
        (Returned tt,
         {| this := {| _cache := <[k := value]> (_cache (this st));
                       _projectFolder := _projectFolder (this st) |};
            world := world st |})
    | None => (Returned tt, st)
    end.

Definition projectFolder : M string :=
  fun st => (Returned (_projectFolder (this st)), st).

Definition moduleDirectory : M string :=
  fun st => (Returned (dirname (world st)), st).

(** A callback [(message: string) => void] that records what it is told. *)
Definition record (message : string) : M unit := emit (Reported message).

(** ** [JsonFile] *)

(** Modelled from the spec: [JsonFile.loadJsonFile] is not part of the
    sources.  It "parses the JSON document at path"; a parse failure is a
    fatal error, and so is a file that cannot be read. *)
Definition loadJsonFile (jsonFilename : string) : M JsonObject :=
  emit (ReadFile jsonFilename) ;;
  fun st =>
    match files (world st) !! jsonFilename with
    | None => throw (FileNotFound jsonFilename) st
    | Some NotJson => throw (JsonParseError jsonFilename) st
    | Some (Json err doc) => allocate err doc st
    end.

(** Modelled from the spec: [JsonFile.validateSchema] is not part of the
    sources.  It "validates the parsed document against a fixed, bundled
    schema document" and hands the detail of a violation to the callback. *)
Definition validateSchema (jsonObject jsonSchemaObject : JsonObject)
           (errorCallback : string -> M unit) : M unit :=
  match schemaError jsonObject with
  | Some errorDetail => errorCallback errorDetail
  | None => ret tt
  end.

(** ** [DocItemLoader] *)

(** [constructor(projectFolder)] (lines 40-47). *)
Definition construct (projectFolder : string) (w : World) : Outcome DocItemLoader * World :=
  let probe := Path.joinStrings [projectFolder; "package.json"] in
  let w' := {| files := files w; dirname := dirname w; nextOid := nextOid w;
               trace := trace w ++ [ExistsSync probe] |} in
  if negb (bool_decide (is_Some (files w !! probe))) then
    (Thrown (Error ("An NPM project was not found in the specified folder: " +:+ projectFolder)), w')
  else
    (Returned {| _cache := ∅; _projectFolder := projectFolder |}, w').

(** The [errorMessage] composed at lines 143-145. *)
Definition schemaErrorMessage (errorDetail : string) : string :=
  "ApiJsonGenerator validation error - output does not conform to api-json-schema.json:"
    +:+ Path.EOL +:+ errorDetail.

(** The callback that [loadPackageIntoCache] gives to [validateSchema]
    (lines 142-149). *)
Definition schemaErrorCallback (errorDetail : string) : M unit :=
  let errorMessage := schemaErrorMessage errorDetail in
  emit (ConsoleLog (Path.EOL +:+ "ERROR: " +:+ errorMessage +:+ Path.EOL +:+ Path.EOL)) ;;
  throw (Error errorMessage).

(** The key under which [loadPackageIntoCache] stores (line 152). *)
Definition storeKey (packageJsonFilePath : string) : option string :=
  Js.shift (Js.split "." (Path.basename packageJsonFilePath)).

(** [loadPackageIntoCache(packageJsonFilePath)] (lines 136-155). *)
Definition loadPackageIntoCache (packageJsonFilePath : string) : M JsonObject :=
  apiPackage <- loadJsonFile packageJsonFilePath ;;
  here <- moduleDirectory ;;
  apiJsonSchema <- loadJsonFile (Path.joinStrings [here; "./schemas/api-json-schema.json"]) ;;
  validateSchema apiPackage apiJsonSchema schemaErrorCallback ;;
  let packageName := storeKey packageJsonFilePath in
  cacheSet packageName apiPackage ;;
  ret apiPackage.

(** The key under which [getPackage] looks up (lines 96-103). *)
Definition cachePackageName (apiDefinitionRef : IApiDefinitionReference) : string :=
  if Js.truthy (scopeName apiDefinitionRef) then
    Js.toString (scopeName apiDefinitionRef) +:+ "/" +:+ packageName apiDefinitionRef
  else packageName apiDefinitionRef.

(** The arguments of [path.join] at lines 115-121. *)
Definition manifestSegments (folder : string) (apiDefinitionRef : IApiDefinitionReference)
  : list (option string) :=
  [ Some folder; Some "node_modules"; scopeName apiDefinitionRef;
    Some (packageName apiDefinitionRef);
    Some ("dist/" +:+ packageName apiDefinitionRef +:+ ".api.json") ].

Definition notFoundMessage (apiDefinitionRef : IApiDefinitionReference) : string :=
  "@inheritdoc referenced package (" +:+ Js.quote +:+ packageName apiDefinitionRef
    +:+ Js.quote +:+ ") not found in node modules.".

(** [getPackage(apiDefinitionRef, reportError)] (lines 95-130); the result
    [None] is [undefined]. *)
Definition getPackage (apiDefinitionRef : IApiDefinitionReference)
           (reportError : string -> M unit) : M (option JsonObject) :=
  cached <- cacheGet (cachePackageName apiDefinitionRef) ;;
  match cached with
  | Some docPackage => ret (Some docPackage)
  | None =>
      if negb (Js.truthy (Some (packageName apiDefinitionRef))) then ret None
      else
        folder <- projectFolder ;;
        match Path.join (manifestSegments folder apiDefinitionRef) with
        | None => throw TypeError
        | Some packageJsonFilePath =>
            found <- existsSync (Path.joinStrings [packageJsonFilePath]) ;;
            if negb found then
              reportError (notFoundMessage apiDefinitionRef) ;;
              ret None
            else
              docPackage <- loadPackageIntoCache packageJsonFilePath ;;
              ret (Some docPackage)
        end
  end.

(** [getItem(apiDefinitionRef, reportError)] (lines 55-87); the reference
    [None] is a falsy argument, the result [Js.Absent] is [undefined]. *)
Definition getItem (apiDefinitionRef : option IApiDefinitionReference)
           (reportError : string -> M unit) : M ItemValue :=
  match apiDefinitionRef with
  | None =>
      reportError "Expected reference within {@inheritdoc} tag" ;;
      ret Js.Absent
  | Some reference =>
      docPackage <- getPackage reference reportError ;;
      match docPackage with
      | None => ret Js.Absent
      | Some docPackage =>
          let exported := exports (document docPackage) in
          if Js.has (exportName reference) exported then
            let docItem := Js.get exported (exportName reference) in
            if Js.truthy (memberName reference) then
              match membersOf docItem with
              | None => throw TypeError
              | Some classMembers =>
                  if Js.has (Js.toString (memberName reference)) classMembers then
                    ret (Js.get classMembers (Js.toString (memberName reference)))
                  else ret Js.Absent
              end
            else ret docItem
          else ret Js.Absent
      end
  end.

(** ** Shapes of normalised paths *)

(** No slash occurs in the string. *)
Fixpoint slashFree (s : string) : bool :=
  match s with
  | EmptyString => true
  | String c rest => negb (Ascii.eqb c "/") && slashFree rest
  end.

(** A component that [normalizeArray] keeps as it is. *)
Definition plainName (p : string) : bool :=
  negb (String.eqb p EmptyString) && negb (String.eqb p ".") && negb (String.eqb p "..").

(** The shape of a normalised relative path: [..] components, then names. *)
Fixpoint climbing (parts : list string) : bool :=
  match parts with
  | [] => true
  | p :: parts' => if String.eqb p ".." then climbing parts' else forallb plainName parts
  end.

Definition normalised (allowAboveRoot : bool) (parts : list string) : bool :=
  if allowAboveRoot then climbing parts else forallb plainName parts.

(** The stack of the loop, top first: names above [..] components. *)
Fixpoint descending (res : list string) : bool :=
  match res with
  | [] => true
  | p :: res' =>
      if String.eqb p ".." then forallb (String.eqb "..") res'
      else plainName p && descending res'
  end.

(** ** Observations on a run *)

(** The messages the recording callback received, oldest first. *)
Fixpoint reports (events : list Event) : list string :=
  match events with
  | [] => []
  | Reported message :: events' => message :: reports events'
  | _ :: events' => reports events'
  end.

(** The file-system accesses among the events. *)
Definition isFileAccess (e : Event) : bool :=
  match e with
  | ExistsSync _ | ReadFile _ => true
  | ConsoleLog _ | Reported _ => false
  end.

Definition fileAccesses (events : list Event) : list Event :=
  List.filter isFileAccess events.

Definition cacheOf (st : State) : gmap string JsonObject := _cache (this st).

Definition traceOf (st : State) : list Event := trace (world st).

(** The state after one more event. *)
Definition logged (e : Event) (st : State) : State := snd (emit e st).

(** Where the schema is read from. *)
Definition schemaPath (st : State) : string :=
  Path.joinStrings [dirname (world st); "./schemas/api-json-schema.json"].

(** The phrase every schema failure carries. *)
Definition schemaPhrase : string := "does not conform to api-json-schema.json".

(** Every key of the cache is free of slashes. *)
Definition storedKeysPlain (st : State) : Prop :=
  forall key : string, is_Some (cacheOf st !! key) -> slashFree key = true.

(** A session: [getPackage] for each reference in turn, on the same loader,
    with the recording callback; the state after the last call. *)
Fixpoint session (references : list IApiDefinitionReference) (st : State) : State :=
  match references with
  | [] => st
  | reference :: references' => session references' (snd (getPackage reference record st))
  end.

(** The manifest location in the words of the specification: the join of the
    project root, the fixed segment [node_modules], the scope name, the
    package name and [dist/<packageName>.api.json]. *)
Definition specManifestPath (projectRoot scope package : string) : string :=
  Path.joinStrings
    [projectRoot; "node_modules"; scope; package; "dist/" +:+ package +:+ ".api.json"].

(** ** A project on disk, for the concrete runs *)

Module Scenario.

Definition render : IDocItem := DocItem "method" None.

Definition widget : IDocItem := DocItem "class" (Some [("render", render)]).

Definition gadget : IDocItem := DocItem "class" (Some [("refresh", DocItem "method" None)]).

Definition helper : IDocItem := DocItem "function" None.

Definition fooPackage : IDocPackage :=
  {| exports := [("Widget", widget); ("Gadget", gadget); ("helper", helper)] |}.

(** The manifest of the scoped package [@ms/foo], another package. *)
Definition scopedFooPackage : IDocPackage :=
  {| exports := [("Panel", DocItem "class" (Some []))] |}.

Definition emptyDocument : IDocPackage := {| exports := [] |}.

Definition disk : gmap string FileContent :=
  list_to_map
    [ ("/proj/package.json", Json (Some "not an api file") emptyDocument);
      ("/lib/schemas/api-json-schema.json", Json (Some "not an api file") emptyDocument);
      ("/proj/node_modules/foo/dist/foo.api.json", Json None fooPackage);
      ("/proj/node_modules/@ms/foo/dist/foo.api.json", Json None scopedFooPackage);
      ("/proj/node_modules/.hidden/dist/.hidden.api.json", Json None fooPackage);
      ("/proj/node_modules/bad/dist/bad.api.json", Json (Some "Missing required property: exports") emptyDocument);
      ("/proj/node_modules/broken/dist/broken.api.json", NotJson) ].

Definition world0 : World :=
  {| files := disk; dirname := "/lib"; nextOid := 0; trace := [] |}.

(** The loader that [new DocItemLoader("/proj")] builds. *)
Definition fresh : State :=
  {| this := {| _cache := ∅; _projectFolder := "/proj" |};
     world := snd (construct "/proj" world0) |}.

Definition reference (scope : option string) (package export : string)
           (member : option string) : IApiDefinitionReference :=
  {| scopeName := scope; packageName := package; exportName := export; memberName := member |}.

(** [foo] without a scope, given as the empty string or left out. *)
Definition fooWidgetRender : IApiDefinitionReference :=
  reference (Some EmptyString) "foo" "Widget" (Some "render").

Definition fooWithoutScope : IApiDefinitionReference :=
  reference None "foo" "Widget" None.

Definition unscopedFoo : IApiDefinitionReference :=
  reference (Some EmptyString) "foo" "Widget" None.

(** A member asked of an export that is a function. *)
Definition fooHelperRender : IApiDefinitionReference :=
  reference (Some EmptyString) "foo" "helper" (Some "render").

(** An export name that [foo] does not have. *)
Definition fooToString : IApiDefinitionReference :=
  reference (Some EmptyString) "foo" "toString" None.

Definition scopedFoo : IApiDefinitionReference :=
  reference (Some "@ms") "foo" "Widget" None.

Definition badPackage : IApiDefinitionReference :=
  reference (Some EmptyString) "bad" "Widget" None.

Definition missingPackage : IApiDefinitionReference :=
  reference (Some EmptyString) "nope" "Widget" None.




(** The object that the first successful load on [fresh] builds. *)
Definition firstFoo : JsonObject :=
  {| oid := 0; schemaError := None; document := fooPackage |}.

(** Two calls in a row on the same loader: both outcomes, and the states
    after the first and after the second call. *)
Definition twice {A : Type} (call : M A) (st : State)
  : (Outcome A * State) * (Outcome A * State) :=
  let first := call st in (first, call (snd first)).

End Scenario.

(** ** Calls on one loader *)

(** The character does not occur in the string. *)
Fixpoint charFree (c : ascii) (s : string) : bool :=
  match s with
  | EmptyString => true
  | String a rest => negb (Ascii.eqb a c) && charFree c rest
  end.

(** A call of one of the three public methods, with the recording callback. *)
Inductive Call : Type :=
| GetItem (apiDefinitionRef : option IApiDefinitionReference)
| GetPackage (apiDefinitionRef : IApiDefinitionReference)
| LoadPackageIntoCache (packageJsonFilePath : string).

(** The state a call leaves, whether it returns or throws. *)
Definition perform (call : Call) (st : State) : State :=
  match call with
  | GetItem apiDefinitionRef => snd (getItem apiDefinitionRef record st)
  | GetPackage apiDefinitionRef => snd (getPackage apiDefinitionRef record st)
  | LoadPackageIntoCache packageJsonFilePath => snd (loadPackageIntoCache packageJsonFilePath st)
  end.

(** Calls one after the other on the same loader. *)
Fixpoint performAll (calls : list Call) (st : State) : State :=
  match calls with
  | [] => st
  | call :: calls' => performAll calls' (perform call st)
  end.

(** Every key of the cache is free of slashes and of dots. *)
Definition storedKeysSimple (st : State) : Prop :=
  forall key : string,
    is_Some (cacheOf st !! key) -> slashFree key = true /\ charFree "." key = true.

(** What one call may change: nothing on disk, not the module directory, not
    the project folder; object identities are only used up; the cache stays
    as it is or gets one entry set, to a newly parsed conforming document,
    under the store key of some path. *)
Definition follows (st st' : State) : Prop :=
  files (world st') = files (world st)
  /\ dirname (world st') = dirname (world st)
  /\ _projectFolder (this st') = _projectFolder (this st)
  /\ nextOid (world st) <= nextOid (world st')
  /\ (cacheOf st' = cacheOf st
      \/ exists path key doc,
           storeKey path = Some key
           /\ cacheOf st'
              = <[key := {| oid := nextOid (world st); schemaError := None; document := doc |}]>
                  (cacheOf st)
           /\ nextOid (world st') = nextOid (world st) + 2).

(** Every cached object was allocated before, and no object sits under two
    keys. *)
Definition cacheSound (st : State) : Prop :=
  (forall key docPackage,
      cacheOf st !! key = Some docPackage -> oid docPackage < nextOid (world st))
  /\ (forall key key' docPackage docPackage',
         cacheOf st !! key = Some docPackage -> cacheOf st !! key' = Some docPackage' ->
         oid docPackage = oid docPackage' -> key = key').

(** ** A project whose [foo] exports a [Widget] without members *)

Module Bare.

Definition widget : IDocItem := DocItem "interface" None.

Definition fooPackage : IDocPackage := {| exports := [("Widget", widget)] |}.

Definition disk : gmap string FileContent :=
  <["/proj/node_modules/foo/dist/foo.api.json" := Json None fooPackage]> Scenario.disk.

Definition world0 : World :=
  {| files := disk; dirname := "/lib"; nextOid := 0; trace := [] |}.

(** The loader that [new DocItemLoader("/proj")] builds on that disk. *)
Definition fresh : State :=
  {| this := {| _cache := ∅; _projectFolder := "/proj" |};
     world := snd (construct "/proj" world0) |}.

End Bare.

(** ** More runs on the project on disk *)

Module Tour.

(** The export [Gadget] of [foo], as a whole and by its member [refresh]. *)
Definition fooGadget : IApiDefinitionReference :=
  Scenario.reference (Some EmptyString) "foo" "Gadget" None.

Definition fooGadgetRefresh : IApiDefinitionReference :=
  Scenario.reference (Some EmptyString) "foo" "Gadget" (Some "refresh").

(** A name that [foo] does not export. *)
Definition fooUnknown : IApiDefinitionReference :=
  Scenario.reference (Some EmptyString) "foo" "Sprocket" None.

(** A package whose manifest is not JSON. *)
Definition brokenPackage : IApiDefinitionReference :=
  Scenario.reference (Some EmptyString) "broken" "Widget" None.

(** The loader once [foo] has been loaded. *)
Definition fooLoaded : State := snd (getPackage Scenario.unscopedFoo record Scenario.fresh).

(** A session that loads [foo], asks for an item of [@ms/foo], and for a
    package that is not installed. *)
Definition calls : list Call :=
  [ GetPackage Scenario.unscopedFoo; GetItem (Some Scenario.scopedFoo);
    GetPackage Scenario.missingPackage; GetItem None ].

(** What that session leaves under the key [foo]: the object parsed from the
    manifest of [@ms/foo]. *)
Definition lastFoo : JsonObject :=
  {| oid := 2; schemaError := None; document := Scenario.scopedFooPackage |}.

End Tour.

(** ** [path.normalize] is idempotent *)

Lemma split_app (a b : string) :
  Js.split "/" (a +:+ String "/" b) = Js.split "/" a ++ Js.split "/" b.
Proof.
  induction a as [|c a IH]; simpl; [reflexivity |].
  destruct (Ascii.eqb c "/"); rewrite IH; [reflexivity |].
  destruct (Js.split "/" a) eqn:E; [| reflexivity].
  destruct a; simpl in E; [discriminate |].
  destruct (Ascii.eqb a "/"); [discriminate |].
  destruct (Js.split "/" a0); discriminate.
Qed.

Lemma split_slashFree (s : string) : slashFree s = true -> Js.split "/" s = [s].
Proof.
  induction s as [|c s IH]; simpl; [reflexivity |].
  intros H. apply andb_prop in H as [Hc Hs].
  apply negb_true_iff in Hc. rewrite Hc, (IH Hs). reflexivity.
Qed.

Lemma split_pieces (s : string) : Forall (fun p => slashFree p = true) (Js.split "/" s).
Proof.
  induction s as [|c s IH]; simpl.
  - constructor; [reflexivity | constructor].
  - destruct (Ascii.eqb c "/") eqn:E.
    + constructor; [reflexivity | exact IH].
    + destruct (Js.split "/" s); inversion IH; subst; constructor; simpl; try rewrite E; auto.
Qed.

Lemma split_concat (segs : list string) :
  segs <> [] -> Forall (fun p => slashFree p = true) segs ->
  Js.split "/" (String.concat "/" segs) = segs.
Proof.
  induction segs as [|x segs IH]; [congruence |].
  intros _ H. inversion H as [|? ? Hx Hsegs]; subst.
  destruct segs as [|y segs].
  - simpl. apply split_slashFree, Hx.
  - change (String.concat "/" (x :: y :: segs))
      with (x +:+ String "/" (String.concat "/" (y :: segs))).
    rewrite split_app, (split_slashFree _ Hx), IH; [reflexivity | congruence | exact Hsegs].
Qed.

Local Arguments String.eqb : simpl never.

Lemma plainName_spec p :
  plainName p = negb (String.eqb p EmptyString || String.eqb p ".") && negb (String.eqb p "..").
Proof. unfold plainName. rewrite negb_orb. reflexivity. Qed.

(** On names only, the loop pushes every component. *)
Lemma normalizeArray_loop_plain parts b res :
  forallb plainName parts = true ->
  Path.normalizeArray_loop parts b res = rev res ++ parts.
Proof.
  revert res. induction parts as [|p parts IH]; intros res H; simpl.
  - symmetry. apply app_nil_r.
  - simpl in H. apply andb_prop in H as [Hp Hparts].
    rewrite plainName_spec in Hp. apply andb_prop in Hp as [H1 H2].
    apply negb_true_iff in H1, H2. rewrite H1, H2, (IH _ Hparts).
    simpl. rewrite <- app_assoc. reflexivity.
Qed.

(** On a normalised relative path, above a stack of [..] only, too. *)
Lemma normalizeArray_loop_climbing parts res :
  forallb (String.eqb "..") res = true -> climbing parts = true ->
  Path.normalizeArray_loop parts true res = rev res ++ parts.
Proof.
  revert res. induction parts as [|p parts IH]; intros res Hres H.
  - simpl. symmetry. apply app_nil_r.
  - simpl in H. destruct (String.eqb p "..") eqn:E.
    + apply String.eqb_eq in E. subst p. simpl.
      destruct res as [|top below].
      * rewrite IH; [reflexivity | reflexivity | exact H].
      * simpl in Hres. apply andb_prop in Hres as [Htop Hbelow].
        apply String.eqb_eq in Htop. subst top. simpl.
        rewrite IH; [| simpl; rewrite Hbelow; reflexivity | exact H].
        simpl. rewrite <- !app_assoc. reflexivity.
    + apply normalizeArray_loop_plain. exact H.
Qed.

Lemma normalizeArray_fixed b parts :
  normalised b parts = true -> Path.normalizeArray parts b = parts.
Proof.
  unfold normalised, Path.normalizeArray. destruct b; intros H.
  - apply (normalizeArray_loop_climbing parts []); [reflexivity | exact H].
  - apply (normalizeArray_loop_plain parts false []). exact H.
Qed.

Lemma climbing_dots parts : forallb (String.eqb "..") parts = true -> climbing parts = true.
Proof.
  induction parts as [|p parts IH]; simpl; [reflexivity |].
  intros H. apply andb_prop in H as [Hp Hparts].
  apply String.eqb_eq in Hp. subst p. simpl. apply IH, Hparts.
Qed.

Lemma forallb_snoc {A} (f : A -> bool) xs x :
  forallb f (xs ++ [x]) = forallb f xs && f x.
Proof. rewrite forallb_app. simpl. rewrite andb_true_r. reflexivity. Qed.

Lemma forallb_rev {A} (f : A -> bool) xs : forallb f (rev xs) = forallb f xs.
Proof.
  induction xs as [|x xs IH]; simpl; [reflexivity |].
  rewrite forallb_snoc, IH. apply andb_comm.
Qed.

Lemma climbing_snoc parts p :
  climbing parts = true -> plainName p = true -> climbing (parts ++ [p]) = true.
Proof.
  intros H Hp. induction parts as [|x parts IH]; simpl.
  - destruct (String.eqb p "..") eqn:E; [| rewrite Hp; reflexivity].
    apply String.eqb_eq in E. subst p. discriminate.
  - simpl in H. destruct (String.eqb x "..").
    + apply IH, H.
    + apply andb_prop in H as [Hx Hparts].
      rewrite Hx, forallb_snoc, Hparts, Hp. reflexivity.
Qed.

Lemma descending_rev res : descending res = true -> climbing (rev res) = true.
Proof.
  induction res as [|p res IH]; simpl; [reflexivity |].
  destruct (String.eqb p "..") eqn:E; intros H.
  - apply climbing_dots. rewrite forallb_snoc, forallb_rev, H.
    apply String.eqb_eq in E. subst p. reflexivity.
  - apply andb_prop in H as [Hp Hres]. apply climbing_snoc; [apply IH, Hres | exact Hp].
Qed.

Lemma normalizeArray_loop_climbs parts res :
  descending res = true -> climbing (Path.normalizeArray_loop parts true res) = true.
Proof.
  revert res. induction parts as [|p parts IH]; intros res H; simpl.
  - apply descending_rev, H.
  - destruct (String.eqb p EmptyString || String.eqb p ".") eqn:E1; [apply IH, H |].
    destruct (String.eqb p "..") eqn:E2.
    + destruct res as [|top below]; [apply IH; reflexivity |].
      cbn [descending] in H. destruct (String.eqb top "..") eqn:E3; simpl.
      * apply IH. apply String.eqb_eq in E3. subst top.
        cbn [descending forallb]. rewrite !String.eqb_refl. exact H.
      * apply andb_prop in H as [_ H]. apply IH, H.
    + apply IH. cbn [descending]. rewrite E2, plainName_spec, E1, E2, H. reflexivity.
Qed.

Lemma normalizeArray_loop_names parts res :
  forallb plainName res = true ->
  forallb plainName (Path.normalizeArray_loop parts false res) = true.
Proof.
  revert res. induction parts as [|p parts IH]; intros res H; simpl.
  - rewrite forallb_rev. exact H.
  - destruct (String.eqb p EmptyString || String.eqb p ".") eqn:E1; [apply IH, H |].
    destruct (String.eqb p "..") eqn:E2.
    + destruct res as [|top below]; [apply IH, H |].
      simpl in H. apply andb_prop in H as [Htop Hbelow].
      destruct (String.eqb top ".."); simpl; apply IH; simpl; [rewrite Htop |]; exact Hbelow.
    + apply IH. simpl. rewrite plainName_spec, E1, E2, H. reflexivity.
Qed.

Lemma normalizeArray_normalised parts b :
  normalised b (Path.normalizeArray parts b) = true.
Proof.
  unfold normalised, Path.normalizeArray. destruct b.
  - apply normalizeArray_loop_climbs. reflexivity.
  - apply normalizeArray_loop_names. reflexivity.
Qed.

(** Every component the loop produces was a component or is [..]. *)
Lemma normalizeArray_loop_Forall (P : string -> Prop) parts b res :
  P ".." -> Forall P parts -> Forall P res ->
  Forall P (Path.normalizeArray_loop parts b res).
Proof.
  intros Hdots. revert res. induction parts as [|p parts IH]; intros res Hparts Hres; simpl.
  - apply Forall_rev, Hres.
  - inversion Hparts as [|? ? Hp Hparts']; subst.
    destruct (String.eqb p EmptyString || String.eqb p "."); [apply IH; assumption |].
    destruct (String.eqb p "..").
    + destruct res as [|top below].
      * destruct b; apply IH; auto.
      * inversion Hres; subst.
        destruct (negb (String.eqb top "..")); [apply IH; assumption |].
        destruct b; apply IH; auto.
    + apply IH; auto.
Qed.

Lemma normalizeArray_loop_trailing parts b res :
  Path.normalizeArray_loop (parts ++ [EmptyString]) b res = Path.normalizeArray_loop parts b res.
Proof.
  revert res. induction parts as [|p parts IH]; intros res; simpl; [reflexivity |].
  destruct (String.eqb p EmptyString || String.eqb p "."); [apply IH |].
  destruct (String.eqb p "..").
  - destruct res as [|top below].
    + destruct b; apply IH.
    + destruct (negb (String.eqb top "..")); [apply IH |]. destruct b; apply IH.
  - apply IH.
Qed.

Lemma normalised_nonempty b parts :
  normalised b parts = true -> Forall (fun p => p <> EmptyString) parts.
Proof.
  assert (P : forall l, forallb plainName l = true -> Forall (fun p => p <> EmptyString) l).
  { induction l as [|p l IH]; intros H; constructor.
    - cbn [forallb] in H. apply andb_prop in H as [Hp _]. intros ->. discriminate.
    - cbn [forallb] in H. apply andb_prop in H as [_ Hl]. apply IH, Hl. }
  unfold normalised. destruct b; [| apply P].
  induction parts as [|p parts IH]; intros H; [constructor |].
  cbn [climbing] in H. destruct (String.eqb p "..") eqn:E; [| apply P, H].
  constructor; [| apply IH, H]. apply String.eqb_eq in E. subst p. discriminate.
Qed.

Lemma concat_cons_nonempty x segs :
  x <> EmptyString -> String.concat "/" (x :: segs) <> EmptyString.
Proof.
  intros Hx. destruct x as [|c x]; [congruence |]. destruct segs; simpl; discriminate.
Qed.

Lemma endsWithSlash_cons c s :
  s <> EmptyString -> Path.endsWithSlash (String c s) = Path.endsWithSlash s.
Proof. destruct s; [congruence | reflexivity]. Qed.

Lemma endsWithSlash_app a b :
  b <> EmptyString -> Path.endsWithSlash (a +:+ b) = Path.endsWithSlash b.
Proof.
  intros Hb. induction a as [|c a IH]; [reflexivity |].
  change (String c a +:+ b) with (String c (a +:+ b)).
  rewrite endsWithSlash_cons; [exact IH |]. destruct a; [exact Hb | discriminate].
Qed.

Lemma endsWithSlash_slashFree s : slashFree s = true -> Path.endsWithSlash s = false.
Proof.
  induction s as [|c s IH]; [reflexivity |].
  cbn [slashFree]. intros H. apply andb_prop in H as [Hc Hs].
  destruct s as [|d s]; [simpl; apply negb_true_iff, Hc |].
  rewrite endsWithSlash_cons; [apply IH, Hs | discriminate].
Qed.

Lemma endsWithSlash_concat segs :
  segs <> [] ->
  Forall (fun p => slashFree p = true) segs -> Forall (fun p => p <> EmptyString) segs ->
  Path.endsWithSlash (String.concat "/" segs) = false.
Proof.
  induction segs as [|x segs IH]; [congruence |].
  intros _ Hs Hn. inversion Hs; subst. inversion Hn; subst.
  destruct segs as [|y segs]; [simpl; apply endsWithSlash_slashFree; assumption |].
  change (String.concat "/" (x :: y :: segs))
    with (x +:+ String "/" (String.concat "/" (y :: segs))).
  rewrite endsWithSlash_app; [| discriminate].
  rewrite endsWithSlash_cons; [apply IH; [congruence | assumption | assumption] |].
  apply concat_cons_nonempty. inversion Hn as [|? ? _ Hy]; inversion Hy; assumption.
Qed.

Lemma isAbsolute_concat x segs rest :
  slashFree x = true -> x <> EmptyString ->
  Path.isAbsolute (String.concat "/" (x :: segs) +:+ rest) = false.
Proof.
  intros Hs Hn. destruct x as [|c x]; [congruence |].
  cbn [slashFree] in Hs. apply andb_prop in Hs as [Hc _]. apply negb_true_iff in Hc.
  destruct segs; simpl; exact Hc.
Qed.

Lemma append_empty_r s : s +:+ EmptyString = s.
Proof.
  induction s as [|c s IH]; [reflexivity |].
  change (String c (s +:+ EmptyString) = String c s). rewrite IH. reflexivity.
Qed.

(** A path put together from normalised components is left alone. *)
Lemma normalize_assembled (absolute trailing : bool) (segs : list string) :
  segs <> [] ->
  normalised (negb absolute) segs = true ->
  Forall (fun p => slashFree p = true) segs ->
  Path.normalize
    ((if absolute then "/" else EmptyString)
       +:+ (if trailing then String.concat "/" segs +:+ "/" else String.concat "/" segs))
  = (if absolute then "/" else EmptyString)
       +:+ (if trailing then String.concat "/" segs +:+ "/" else String.concat "/" segs).
Proof.
  intros Hne Hnorm Hslash.
  pose proof (normalised_nonempty _ _ Hnorm) as Hfull.
  destruct segs as [|x segs]; [congruence |].
  set (body := String.concat "/" (x :: segs)).
  assert (Hbody : String.eqb body EmptyString = false).
  { apply String.eqb_neq, concat_cons_nonempty. inversion Hfull; assumption. }
  assert (Hsplit : Js.split "/" body = x :: segs) by (apply split_concat; assumption).
  assert (Hend : Path.endsWithSlash body = false) by (apply endsWithSlash_concat; assumption).
  assert (Habs : forall rest, Path.isAbsolute (body +:+ rest) = false).
  { intros rest. apply isAbsolute_concat; [inversion Hslash | inversion Hfull]; assumption. }
  assert (Hbody' : body <> EmptyString) by (apply String.eqb_neq, Hbody).
  set (r := (if absolute then "/" else EmptyString)
              +:+ (if trailing then body +:+ "/" else body)).
  assert (F1 : Path.isAbsolute r = absolute).
  { subst r. destruct absolute; [reflexivity |].
    destruct trailing; [apply Habs |]. rewrite <- (append_empty_r body). apply Habs. }
  assert (F2 : Path.endsWithSlash r = trailing).
  { subst r. destruct trailing.
    - rewrite endsWithSlash_app by (destruct body; discriminate).
      apply endsWithSlash_app. discriminate.
    - destruct absolute; [| exact Hend].
      change ("/" +:+ body) with (String "/" body).
      rewrite endsWithSlash_cons by assumption. exact Hend. }
  assert (F3 : Path.normalizeArray (Js.split "/" r) (negb absolute) = x :: segs).
  { assert (T : Path.normalizeArray (Js.split "/" (if trailing then body +:+ "/" else body))
                                    (negb absolute) = x :: segs).
    { destruct trailing.
      - rewrite split_app, Hsplit. unfold Path.normalizeArray.
        change (Js.split "/" EmptyString) with [EmptyString].
        rewrite normalizeArray_loop_trailing. apply (normalizeArray_fixed _ _ Hnorm).
      - rewrite Hsplit. apply normalizeArray_fixed, Hnorm. }
    subst r. destruct absolute; [| exact T].
    change ("/" +:+ ?s) with (EmptyString +:+ String "/" s).
    rewrite split_app. exact T. }
  unfold Path.normalize. cbv zeta. rewrite F1, F2, F3. fold body.
  rewrite Hbody. cbn [andb]. rewrite Hbody.
  subst r. destruct absolute, trailing; reflexivity.
Qed.

(** [path.normalize] is idempotent. *)
Lemma normalize_idempotent (p : string) :
  Path.normalize (Path.normalize p) = Path.normalize p.
Proof.
  remember (Path.normalize p) as r eqn:R.
  unfold Path.normalize in R. cbv zeta in R.
  set (absolute := Path.isAbsolute p) in R. set (trailing := Path.endsWithSlash p) in R.
  pose proof (normalizeArray_normalised (Js.split "/" p) (negb absolute)) as Hnorm.
  assert (Hslash : Forall (fun q => slashFree q = true)
                          (Path.normalizeArray (Js.split "/" p) (negb absolute))).
  { apply normalizeArray_loop_Forall; [reflexivity | apply split_pieces | constructor]. }
  destruct (Path.normalizeArray (Js.split "/" p) (negb absolute)) as [|x segs] eqn:E.
  - subst r. destruct absolute, trailing; reflexivity.
  - pose proof (normalised_nonempty _ _ Hnorm) as Hfull.
    assert (Hbody : String.eqb (String.concat "/" (x :: segs)) EmptyString = false).
    { apply String.eqb_neq, concat_cons_nonempty. inversion Hfull; assumption. }
    rewrite Hbody in R. cbn [andb] in R. rewrite Hbody in R. cbn [negb andb] in R.
    subst r. apply normalize_assembled; (congruence || assumption).
Qed.

Lemma normalize_nonempty (p : string) : Path.normalize p <> EmptyString.
Proof.
  unfold Path.normalize. cbv zeta.
  destruct (Path.isAbsolute p); [discriminate |].
  cbn [negb]. rewrite andb_true_r.
  set (body := String.concat "/" (Path.normalizeArray (Js.split "/" p) true)).
  destruct (String.eqb body EmptyString) eqn:E.
  - destruct (Path.endsWithSlash p); discriminate.
  - rewrite E. cbn [negb andb].
    apply String.eqb_neq in E.
    destruct (Path.endsWithSlash p); [| exact E].
    destruct body; [congruence | discriminate].
Qed.

(** Line 123 joins the path that line 115 already joined: nothing changes. *)
Lemma joinStrings_single (args : list string) :
  Path.joinStrings [Path.joinStrings args] = Path.joinStrings args.
Proof.
  unfold Path.joinStrings at 1. cbn [Path.join_loop].
  destruct (String.eqb (Path.joinStrings args) EmptyString) eqn:E.
  - apply String.eqb_eq in E. exfalso. exact (normalize_nonempty _ E).
  - rewrite String.eqb_refl. apply normalize_idempotent.
Qed.

(** ** The store key never holds a slash *)

Lemma split_keeps_slashFree sep s :
  slashFree s = true -> Forall (fun p => slashFree p = true) (Js.split sep s).
Proof.
  induction s as [|c s IH]; intros H.
  - constructor; [reflexivity | constructor].
  - cbn [slashFree] in H. apply andb_prop in H as [Hc Hs]. specialize (IH Hs). simpl.
    destruct (Ascii.eqb c sep).
    + constructor; [reflexivity | exact IH].
    + destruct (Js.split sep s) as [|piece pieces].
      * constructor; [cbn [slashFree]; rewrite Hc; reflexivity | constructor].
      * inversion IH; subst. constructor; [| assumption].
        cbn [slashFree]. rewrite Hc. assumption.
Qed.

Lemma last_Forall {A : Type} (P : A -> Prop) (xs : list A) (d : A) :
  P d -> Forall P xs -> P (List.last xs d).
Proof.
  intros Hd H. induction H as [|x xs Hx Hxs IH]; [exact Hd |].
  destruct xs; [exact Hx | exact IH].
Qed.

Lemma basename_slashFree p : slashFree (Path.basename p) = true.
Proof.
  unfold Path.basename.
  apply (last_Forall (fun q => slashFree q = true)); [reflexivity |].
  apply List.Forall_forall. intros q Hq. apply List.filter_In in Hq as [Hq _].
  exact (proj1 (List.Forall_forall _ _) (split_pieces p) q Hq).
Qed.

Lemma slashFree_with_slash a b : slashFree (a +:+ String "/" b) = false.
Proof.
  induction a as [|c a IH]; [reflexivity |].
  change (String c a +:+ String "/" b) with (String c (a +:+ String "/" b)).
  cbn [slashFree]. rewrite IH. apply andb_false_r.
Qed.

Example split_manifest_name :
  Js.split "." "sp-core-library.api.json" = ["sp-core-library"; "api"; "json"].
Proof. reflexivity. Qed.

Example join_scoped :
  Path.join [Some "/proj"; Some "node_modules"; Some "@microsoft"; Some "sp-core-library";
             Some "dist/sp-core-library.api.json"]
  = Some "/proj/node_modules/@microsoft/sp-core-library/dist/sp-core-library.api.json".
Proof. reflexivity. Qed.

Example join_empty_scope :
  Path.join [Some "/proj"; Some "node_modules"; Some ""; Some "foo"; Some "dist/foo.api.json"]
  = Some "/proj/node_modules/foo/dist/foo.api.json".
Proof. reflexivity. Qed.

Example join_undefined_scope :
  Path.join [Some "/proj"; Some "node_modules"; None; Some "foo"; Some "dist/foo.api.json"]
  = None.
Proof. reflexivity. Qed.

Example join_dots : Path.join [Some "a/./b"; Some "../c/"] = Some "a/c/".
Proof. reflexivity. Qed.

Example basename_manifest :
  Path.basename "/proj/node_modules/foo/dist/foo.api.json" = "foo.api.json".
Proof. reflexivity. Qed.

Example constructed_fresh :
  fst (construct "/proj" Scenario.world0) = Returned (this Scenario.fresh).
Proof. vm_compute. reflexivity. Qed.

(** ** Running the monad *)

Lemma bind_returned {A B : Type} (m : M A) (k : A -> M B) st a st' :
  m st = (Returned a, st') -> bind m k st = k a st'.
Proof. intros H. unfold bind. rewrite H. reflexivity. Qed.

Lemma bind_thrown {A B : Type} (m : M A) (k : A -> M B) st e st' :
  m st = (Thrown e, st') -> bind m k st = (Thrown e, st').
Proof. intros H. unfold bind. rewrite H. reflexivity. Qed.

Lemma emit_run e st : emit e st = (Returned tt, logged e st).
Proof. reflexivity. Qed.

Lemma logged_cache e st : cacheOf (logged e st) = cacheOf st.
Proof. reflexivity. Qed.

Lemma logged_files e st : files (world (logged e st)) = files (world st).
Proof. reflexivity. Qed.

Lemma logged_trace e st : traceOf (logged e st) = traceOf st ++ [e].
Proof. reflexivity. Qed.

(** [split] never yields the empty array, so [shift] always finds a string. *)
Lemma split_shift sep s : exists piece, Js.shift (Js.split sep s) = Some piece.
Proof.
  destruct s as [|c rest]; simpl.
  - eexists; reflexivity.
  - destruct (Ascii.eqb c sep).
    + eexists; reflexivity.
    + destruct (Js.split sep rest); eexists; reflexivity.
Qed.

Lemma includes_prefix needle rest : Js.includes needle (needle +:+ rest) = true.
Proof.
  assert (H : Js.startsWith needle (needle +:+ rest) = true).
  { induction needle as [|c needle IH]; simpl.
    - reflexivity.
    - rewrite Ascii.eqb_refl. exact IH. }
  destruct (needle +:+ rest); simpl; rewrite H; reflexivity.
Qed.

Lemma includes_skip needle pre hay :
  Js.includes needle hay = true -> Js.includes needle (pre +:+ hay) = true.
Proof.
  intros H. induction pre as [|c pre IH]; simpl; [exact H |].
  rewrite IH. apply orb_true_r.
Qed.

Lemma reports_app xs ys : reports (xs ++ ys) = reports xs ++ reports ys.
Proof.
  induction xs as [|e xs IH]; simpl; [reflexivity |].
  destruct e; simpl; rewrite IH; reflexivity.
Qed.

Lemma fileAccesses_app xs ys : fileAccesses (xs ++ ys) = fileAccesses xs ++ fileAccesses ys.
Proof. unfold fileAccesses. apply List.filter_app. Qed.

(** What [loadJsonFile] does, by what is stored at the path. *)
Lemma loadJsonFile_missing path st :
  files (world st) !! path = None ->
  loadJsonFile path st = (Thrown (FileNotFound path), logged (ReadFile path) st).
Proof.
  intros H. unfold loadJsonFile, bind. rewrite emit_run, logged_files, H. reflexivity.
Qed.

Lemma loadJsonFile_malformed path st :
  files (world st) !! path = Some NotJson ->
  loadJsonFile path st = (Thrown (JsonParseError path), logged (ReadFile path) st).
Proof.
  intros H. unfold loadJsonFile, bind. rewrite emit_run, logged_files, H. reflexivity.
Qed.

Lemma loadJsonFile_parsed path st err doc :
  files (world st) !! path = Some (Json err doc) ->
  loadJsonFile path st = allocate err doc (logged (ReadFile path) st).
Proof.
  intros H. unfold loadJsonFile, bind. rewrite emit_run, logged_files, H. reflexivity.
Qed.

(** [loadJsonFile] never touches the loader, whatever its outcome. *)
Lemma loadJsonFile_this path st :
  this (snd (loadJsonFile path st)) = this st.
Proof.
  destruct (files (world st) !! path) as [[|err doc]|] eqn:H.
  - rewrite (loadJsonFile_malformed _ _ H). reflexivity.
  - rewrite (loadJsonFile_parsed _ _ _ _ H). reflexivity.
  - rewrite (loadJsonFile_missing _ _ H). reflexivity.
Qed.

Lemma loadJsonFile_world path st :
  files (world (snd (loadJsonFile path st))) = files (world st)
  /\ dirname (world (snd (loadJsonFile path st))) = dirname (world st)
  /\ reports (traceOf (snd (loadJsonFile path st))) = reports (traceOf st).
Proof.
  assert (R : reports (traceOf (logged (ReadFile path) st)) = reports (traceOf st)).
  { rewrite logged_trace, reports_app. simpl. apply app_nil_r. }
  destruct (files (world st) !! path) as [[|err doc]|] eqn:H.
  - rewrite (loadJsonFile_malformed _ _ H). simpl. auto.
  - rewrite (loadJsonFile_parsed _ _ _ _ H). simpl. auto.
  - rewrite (loadJsonFile_missing _ _ H). simpl. auto.
Qed.

(** A throwing [loadPackageIntoCache] has not reached its cache write. *)
Lemma throwing_load_keeps_loader :
  forall (path : string) (st st' : State) (e : JsError),
    loadPackageIntoCache path st = (Thrown e, st') ->
    this st' = this st /\ cacheOf st' = cacheOf st.
Proof.
  intros path st st' e H.
  assert (G : this st' = this st); [| split; [exact G | unfold cacheOf; rewrite G; reflexivity]].
  unfold loadPackageIntoCache in H. unfold bind at 1 in H.
  pose proof (loadJsonFile_this path st) as T1.
  destruct (loadJsonFile path st) as [[apiPackage|e1] st1]; simpl in T1.
  2:{ inversion H; subst. exact T1. }
  unfold bind at 1 in H. unfold moduleDirectory at 1 in H.
  unfold bind at 1 in H.
  set (schema := Path.joinStrings [dirname (world st1); "./schemas/api-json-schema.json"]) in H.
  pose proof (loadJsonFile_this schema st1) as T2.
  destruct (loadJsonFile schema st1) as [[apiJsonSchema|e2] st2]; simpl in T2.
  2:{ inversion H; subst. congruence. }
  unfold bind at 1 in H. unfold validateSchema in H.
  destruct (schemaError apiPackage) as [detail|].
  - unfold schemaErrorCallback, bind, throw in H. rewrite emit_run in H.
    inversion H; subst. simpl. congruence.
  - unfold ret at 1 in H. unfold bind at 1 in H.
    destruct (storeKey path) as [k|]; simpl in H; inversion H.
Qed.

(** ** The branches of [getPackage] *)

Lemma join_manifestSegments folder reference scope :
  scopeName reference = Some scope ->
  Path.join (manifestSegments folder reference)
  = Some (Path.joinStrings [folder; "node_modules"; scope; packageName reference;
                            "dist/" +:+ packageName reference +:+ ".api.json"]).
Proof. intros H. unfold manifestSegments, Path.join. rewrite H. reflexivity. Qed.

Lemma join_manifestSegments_undefined folder reference :
  scopeName reference = None -> Path.join (manifestSegments folder reference) = None.
Proof. intros H. unfold manifestSegments, Path.join. rewrite H. reflexivity. Qed.

Lemma getPackage_cached reference reportError st docPackage :
  cacheOf st !! cachePackageName reference = Some docPackage ->
  getPackage reference reportError st = (Returned (Some docPackage), st).
Proof.
  intros H. unfold getPackage, bind, cacheGet. unfold cacheOf in H. rewrite H. reflexivity.
Qed.

Lemma getPackage_local reference reportError st :
  cacheOf st !! cachePackageName reference = None ->
  packageName reference = EmptyString ->
  getPackage reference reportError st = (Returned None, st).
Proof.
  intros H E. unfold getPackage, bind, cacheGet. unfold cacheOf in H. rewrite H, E. reflexivity.
Qed.

Lemma getPackage_join_throws reference reportError st :
  cacheOf st !! cachePackageName reference = None ->
  packageName reference <> EmptyString ->
  Path.join (manifestSegments (_projectFolder (this st)) reference) = None ->
  getPackage reference reportError st = (Thrown TypeError, st).
Proof.
  intros H E J. unfold getPackage. unfold bind at 1. unfold cacheGet.
  unfold cacheOf in H. rewrite H.
  apply String.eqb_neq in E. cbn [Js.truthy]. rewrite E. cbn [negb].
  unfold bind at 1. cbn [projectFolder]. rewrite J. reflexivity.
Qed.

Lemma getPackage_undefined_scope reference reportError st :
  cacheOf st !! cachePackageName reference = None ->
  packageName reference <> EmptyString ->
  scopeName reference = None ->
  getPackage reference reportError st = (Thrown TypeError, st).
Proof.
  intros H E S. apply getPackage_join_throws; [exact H | exact E |].
  apply join_manifestSegments_undefined, S.
Qed.

Lemma getPackage_probe reference reportError st manifest :
  cacheOf st !! cachePackageName reference = None ->
  packageName reference <> EmptyString ->
  Path.join (manifestSegments (_projectFolder (this st)) reference) = Some manifest ->
  getPackage reference reportError st
  = (if bool_decide (is_Some (files (world st) !! Path.joinStrings [manifest]))
     then docPackage <- loadPackageIntoCache manifest ;; ret (Some docPackage)
     else reportError (notFoundMessage reference) ;; ret None)
      (logged (ExistsSync (Path.joinStrings [manifest])) st).
Proof.
  intros H E J. unfold getPackage. unfold bind at 1. unfold cacheGet.
  unfold cacheOf in H. rewrite H.
  apply String.eqb_neq in E. cbn [Js.truthy]. rewrite E. cbn [negb].
  unfold bind at 1. cbn [projectFolder]. rewrite J.
  unfold bind at 1. unfold existsSync. unfold bind at 1. rewrite emit_run.
  rewrite logged_files.
  destruct (bool_decide (is_Some (files (world st) !! Path.joinStrings [manifest])));
    reflexivity.
Qed.

(** ** The branches of [getItem] *)

Lemma get_when_has {A : Type} (key : string) (o : Js.object A) :
  (if Js.has key o then Js.get o key else Js.Absent) = Js.get o key.
Proof.
  unfold Js.has, Js.get. destruct (Js.ownProperty key o); reflexivity.
Qed.

Lemma getItem_package_throws reference reportError st st' e :
  getPackage reference reportError st = (Thrown e, st') ->
  getItem (Some reference) reportError st = (Thrown e, st').
Proof. intros H. unfold getItem. apply bind_thrown, H. Qed.

Lemma getItem_no_package reference reportError st st' :
  getPackage reference reportError st = (Returned None, st') ->
  getItem (Some reference) reportError st = (Returned Js.Absent, st').
Proof. intros H. unfold getItem. rewrite (bind_returned _ _ _ _ _ H). reflexivity. Qed.

(** No member asked: the value of [exports[exportName]], if the name is in. *)
Lemma getItem_export reference reportError st st' docPackage :
  getPackage reference reportError st = (Returned (Some docPackage), st') ->
  Js.truthy (memberName reference) = false ->
  getItem (Some reference) reportError st
  = (Returned (Js.get (exports (document docPackage)) (exportName reference)), st').
Proof.
  intros H Hmember. unfold getItem. rewrite (bind_returned _ _ _ _ _ H), Hmember.
  rewrite <- (get_when_has (exportName reference) (exports (document docPackage))).
  destruct (Js.has (exportName reference) (exports (document docPackage))); reflexivity.
Qed.

(** A name that is not exported resolves to undefined. *)
Lemma getItem_unknown_export reference reportError st st' docPackage :
  getPackage reference reportError st = (Returned (Some docPackage), st') ->
  Js.ownProperty (exportName reference) (exports (document docPackage)) = None ->
  getItem (Some reference) reportError st = (Returned Js.Absent, st').
Proof.
  intros H Hown. unfold getItem. rewrite (bind_returned _ _ _ _ _ H).
  unfold Js.has. rewrite Hown. reflexivity.
Qed.

(** A member asked of a class-like export: the value of [members[memberName]]. *)
Lemma getItem_member reference reportError st st' docPackage item classMembers member :
  getPackage reference reportError st = (Returned (Some docPackage), st') ->
  Js.ownProperty (exportName reference) (exports (document docPackage)) = Some item ->
  members item = Some classMembers ->
  memberName reference = Some member -> member <> EmptyString ->
  getItem (Some reference) reportError st = (Returned (Js.get classMembers member), st').
Proof.
  intros H Hown Hmembers Hname Hfull. unfold getItem. rewrite (bind_returned _ _ _ _ _ H).
  unfold Js.has at 1. unfold Js.get at 1 2. rewrite Hown, Hname.
  apply String.eqb_neq in Hfull. cbn [Js.truthy Js.toString membersOf]. rewrite Hfull, Hmembers.
  cbn [negb]. rewrite <- (get_when_has member classMembers).
  destruct (Js.has member classMembers); reflexivity.
Qed.

(** A member asked of an export without [members]: the [in] operator is
    applied to [undefined] and throws. *)
Lemma getItem_member_of_plain_export reference reportError st st' docPackage item member :
  getPackage reference reportError st = (Returned (Some docPackage), st') ->
  Js.ownProperty (exportName reference) (exports (document docPackage)) = Some item ->
  members item = None ->
  memberName reference = Some member -> member <> EmptyString ->
  getItem (Some reference) reportError st = (Thrown TypeError, st').
Proof.
  intros H Hown Hmembers Hname Hfull. unfold getItem. rewrite (bind_returned _ _ _ _ _ H).
  unfold Js.has at 1. unfold Js.get at 1. rewrite Hown, Hname.
  apply String.eqb_neq in Hfull. cbn [Js.truthy Js.toString membersOf]. rewrite Hfull, Hmembers.
  reflexivity.
Qed.

(** ** Lookup key and store key *)

Lemma storeKey_slashFree path key : storeKey path = Some key -> slashFree key = true.
Proof.
  unfold storeKey, Js.shift. intros H.
  pose proof (split_keeps_slashFree "." _ (basename_slashFree path)) as F.
  destruct (Js.split "." (Path.basename path)) as [|piece pieces]; [discriminate |].
  inversion H; subst. inversion F; assumption.
Qed.

(** The key [getPackage] looks up for a scoped reference has a slash in it;
    no key [loadPackageIntoCache] stores has one. *)
Lemma scoped_key_never_stored reference path :
  Js.truthy (scopeName reference) = true ->
  storeKey path <> Some (cachePackageName reference).
Proof.
  intros Hscope Hstore. apply storeKey_slashFree in Hstore.
  unfold cachePackageName in Hstore. rewrite Hscope in Hstore.
  change (Js.toString (scopeName reference) +:+ "/" +:+ packageName reference)
    with (Js.toString (scopeName reference) +:+ String "/" (packageName reference)) in Hstore.
  rewrite slashFree_with_slash in Hstore. discriminate.
Qed.

(** A returning [loadPackageIntoCache] has stored what it returns, under the
    store key of the path. *)
Lemma loadPackageIntoCache_returns path st docPackage st' :
  loadPackageIntoCache path st = (Returned docPackage, st') ->
  exists key, storeKey path = Some key
              /\ cacheOf st' = <[key := docPackage]> (cacheOf st).
Proof.
  intros H. unfold loadPackageIntoCache in H. unfold bind at 1 in H.
  pose proof (loadJsonFile_this path st) as T1.
  destruct (loadJsonFile path st) as [[apiPackage|e1] st1]; [| discriminate].
  cbn [snd] in T1. unfold bind at 1 in H. cbn [moduleDirectory] in H.
  unfold bind at 1 in H.
  match type of H with
  | context [loadJsonFile ?p st1] =>
      pose proof (loadJsonFile_this p st1) as T2;
      destruct (loadJsonFile p st1) as [[apiJsonSchema|e2] st2]; [| discriminate]
  end.
  cbn [snd] in T2. unfold bind at 1 in H. unfold validateSchema in H.
  destruct (schemaError apiPackage) as [detail|].
  - unfold schemaErrorCallback, bind, throw in H. rewrite emit_run in H. discriminate.
  - cbn [ret] in H. unfold bind at 1 in H.
    destruct (split_shift "." (Path.basename path)) as [key Hkey].
    fold (storeKey path) in Hkey. rewrite Hkey in H. cbn [cacheSet ret] in H.
    inversion H; subst. exists key. split; [exact Hkey |].
    unfold cacheOf. cbn [this _cache]. rewrite T2, T1. reflexivity.
Qed.

(** Where lookup key and store key agree, a package that [getPackage] has
    returned sits in the cache under the lookup key of the reference. *)
Lemma getPackage_cached_when_keys_agree reference reportError st st' docPackage :
  (forall manifest,
      Path.join (manifestSegments (_projectFolder (this st)) reference) = Some manifest ->
      storeKey manifest = Some (cachePackageName reference)) ->
  getPackage reference reportError st = (Returned (Some docPackage), st') ->
  cacheOf st' !! cachePackageName reference = Some docPackage.
Proof.
  intros Hkeys H.
  destruct (cacheOf st !! cachePackageName reference) as [cached|] eqn:Hcache.
  - rewrite (getPackage_cached _ _ _ _ Hcache) in H. inversion H; subst. exact Hcache.
  - destruct (String.eqb (packageName reference) EmptyString) eqn:Hname.
    + apply String.eqb_eq in Hname.
      rewrite (getPackage_local _ _ _ Hcache Hname) in H. discriminate.
    + apply String.eqb_neq in Hname.
      destruct (Path.join (manifestSegments (_projectFolder (this st)) reference))
        as [manifest|] eqn:Hjoin.
      * rewrite (getPackage_probe _ _ _ _ Hcache Hname Hjoin) in H.
        destruct (bool_decide _) in H.
        -- unfold bind in H.
           destruct (loadPackageIntoCache manifest _) as [[loaded|e] st1] eqn:Hload;
             [| discriminate].
           cbn [ret] in H. inversion H; subst.
           destruct (loadPackageIntoCache_returns _ _ _ _ Hload) as [key [Hkey Hcached]].
           rewrite (Hkeys manifest eq_refl) in Hkey. inversion Hkey; subst key.
           rewrite Hcached. apply lookup_insert_eq.
        -- unfold bind in H.
           destruct (reportError (notFoundMessage reference) _) as [[[]|e] st1];
             cbn [ret] in H; discriminate.
      * rewrite (getPackage_join_throws _ _ _ Hcache Hname Hjoin) in H. discriminate.
Qed.

(** Where lookup key and store key agree, a package that [getPackage] has
    returned is cached: the same call again returns the same object and
    leaves the state, with its trace of file accesses, as it is. *)
Lemma getPackage_again_when_keys_agree reference reportError reportError' st st' docPackage :
  (forall manifest,
      Path.join (manifestSegments (_projectFolder (this st)) reference) = Some manifest ->
      storeKey manifest = Some (cachePackageName reference)) ->
  getPackage reference reportError st = (Returned (Some docPackage), st') ->
  getPackage reference reportError' st' = (Returned (Some docPackage), st').
Proof.
  intros Hkeys H. apply getPackage_cached.
  exact (getPackage_cached_when_keys_agree _ _ _ _ _ Hkeys H).
Qed.

(** One call of [getPackage] leaves the cache alone or adds one entry, under
    the store key of some path. *)
Lemma getPackage_cache_step reference st :
  cacheOf (snd (getPackage reference record st)) = cacheOf st
  \/ exists path key docPackage,
       storeKey path = Some key
       /\ cacheOf (snd (getPackage reference record st)) = <[key := docPackage]> (cacheOf st).
Proof.
  destruct (cacheOf st !! cachePackageName reference) as [cached|] eqn:Hcache.
  { rewrite (getPackage_cached _ _ _ _ Hcache). left. reflexivity. }
  destruct (String.eqb (packageName reference) EmptyString) eqn:Hname.
  { apply String.eqb_eq in Hname. rewrite (getPackage_local _ _ _ Hcache Hname).
    left. reflexivity. }
  apply String.eqb_neq in Hname.
  destruct (Path.join (manifestSegments (_projectFolder (this st)) reference))
    as [manifest|] eqn:Hjoin.
  2:{ rewrite (getPackage_join_throws _ _ _ Hcache Hname Hjoin). left. reflexivity. }
  rewrite (getPackage_probe _ _ _ _ Hcache Hname Hjoin).
  destruct (bool_decide _); [| left; reflexivity].
  unfold bind.
  destruct (loadPackageIntoCache manifest _) as [[loaded|e] st1] eqn:Hload.
  - destruct (loadPackageIntoCache_returns _ _ _ _ Hload) as [key [Hkey Hcached]].
    right. exists manifest, key, loaded. split; [exact Hkey | exact Hcached].
  - destruct (throwing_load_keeps_loader _ _ _ _ Hload) as [_ Hsame].
    left. exact Hsame.
Qed.

Lemma getPackage_keeps_plain reference st :
  storedKeysPlain st -> storedKeysPlain (snd (getPackage reference record st)).
Proof.
  intros Hplain key Hkey.
  destruct (getPackage_cache_step reference st) as [Hsame | [path [k [obj [Hk Hins]]]]].
  - rewrite Hsame in Hkey. apply Hplain, Hkey.
  - rewrite Hins in Hkey. destruct (decide (k = key)) as [->|Hne].
    + apply (storeKey_slashFree path), Hk.
    + rewrite lookup_insert_ne in Hkey by exact Hne. apply Hplain, Hkey.
Qed.

Lemma session_keeps_plain references st :
  storedKeysPlain st -> storedKeysPlain (session references st).
Proof.
  revert st. induction references as [|reference references IH]; intros st H; [exact H |].
  apply IH, getPackage_keeps_plain, H.
Qed.

Lemma empty_cache_plain st : cacheOf st = ∅ -> storedKeysPlain st.
Proof. intros H key [obj Hkey]. rewrite H, lookup_empty in Hkey. discriminate. Qed.

(** After any session on a new loader, a scoped reference is not cached:
    [getPackage] goes to the disk for it every time. *)
Lemma scoped_reference_never_cached references reference st :
  cacheOf st = ∅ ->
  Js.truthy (scopeName reference) = true ->
  cacheOf (session references st) !! cachePackageName reference = None.
Proof.
  intros Hempty Hscope.
  pose proof (session_keeps_plain references st (empty_cache_plain st Hempty)) as Hplain.
  destruct (cacheOf (session references st) !! cachePackageName reference) eqn:H;
    [| reflexivity].
  assert (Hfree : slashFree (cachePackageName reference) = true)
    by (apply Hplain; rewrite H; eexists; reflexivity).
  unfold cachePackageName in Hfree. rewrite Hscope in Hfree.
  change (Js.toString (scopeName reference) +:+ "/" +:+ packageName reference)
    with (Js.toString (scopeName reference) +:+ String "/" (packageName reference)) in Hfree.
  rewrite slashFree_with_slash in Hfree. discriminate.
Qed.

(** [loadPackageIntoCache] never calls the callback of the caller. *)
Lemma loadPackageIntoCache_reports path st :
  reports (traceOf (snd (loadPackageIntoCache path st))) = reports (traceOf st).
Proof.
  remember (loadPackageIntoCache path st) as run eqn:Hrun.
  unfold loadPackageIntoCache in Hrun. unfold bind at 1 in Hrun.
  destruct (loadJsonFile_world path st) as [F1 [D1 R1]].
  destruct (loadJsonFile path st) as [[apiPackage|e1] st1]; cbn [snd] in F1, D1, R1;
    [| subst run; exact R1].
  unfold bind at 1 in Hrun. cbn [moduleDirectory] in Hrun. unfold bind at 1 in Hrun.
  match type of Hrun with
  | context [loadJsonFile ?p st1] =>
      destruct (loadJsonFile_world p st1) as [F2 [D2 R2]];
      destruct (loadJsonFile p st1) as [[apiJsonSchema|e2] st2]; cbn [snd] in F2, D2, R2;
      [| subst run; cbn [snd]; congruence]
  end.
  unfold bind at 1 in Hrun. unfold validateSchema in Hrun.
  destruct (schemaError apiPackage) as [detail|].
  - unfold schemaErrorCallback, bind, throw in Hrun. rewrite emit_run in Hrun.
    subst run. cbn [snd]. rewrite logged_trace, reports_app. cbn [reports].
    rewrite app_nil_r. congruence.
  - cbn [ret] in Hrun. unfold bind at 1 in Hrun.
    destruct (storeKey path) as [key|]; cbn [cacheSet ret] in Hrun; unfold bind in Hrun;
      subst run; cbn [snd ret]; unfold traceOf in *; cbn [world]; congruence.
Qed.

(** One call of [getPackage] reports nothing, or reports the not-found
    message once and returns undefined. *)
Lemma getPackage_reports (reference : IApiDefinitionReference) (st : State) :
    reports (traceOf (snd (getPackage reference record st))) = reports (traceOf st)
    \/ (reports (traceOf (snd (getPackage reference record st)))
          = reports (traceOf st) ++ [notFoundMessage reference]
        /\ fst (getPackage reference record st) = Returned None).
Proof.
  destruct (cacheOf st !! cachePackageName reference) as [cached|] eqn:Hcache.
  { rewrite (getPackage_cached _ _ _ _ Hcache). left. reflexivity. }
  destruct (String.eqb (packageName reference) EmptyString) eqn:Hname.
  { apply String.eqb_eq in Hname. rewrite (getPackage_local _ _ _ Hcache Hname).
    left. reflexivity. }
  apply String.eqb_neq in Hname.
  destruct (Path.join (manifestSegments (_projectFolder (this st)) reference))
    as [manifest|] eqn:Hjoin.
  2:{ rewrite (getPackage_join_throws _ _ _ Hcache Hname Hjoin). left. reflexivity. }
  rewrite (getPackage_probe _ _ _ _ Hcache Hname Hjoin).
  assert (Hprobe : reports (traceOf (logged (ExistsSync (Path.joinStrings [manifest])) st))
                   = reports (traceOf st)).
  { rewrite logged_trace, reports_app. cbn [reports]. apply app_nil_r. }
  destruct (bool_decide _).
  - left. unfold bind.
    pose proof (loadPackageIntoCache_reports manifest
                  (logged (ExistsSync (Path.joinStrings [manifest])) st)) as H.
    destruct (loadPackageIntoCache manifest _) as [[loaded|e] st1]; cbn [snd ret] in *;
      congruence.
  - right. split; [| reflexivity].
    change (snd ((record (notFoundMessage reference) ;; ret None)
                   (logged (ExistsSync (Path.joinStrings [manifest])) st)))
      with (logged (Reported (notFoundMessage reference))
              (logged (ExistsSync (Path.joinStrings [manifest])) st)).
    rewrite logged_trace, reports_app, Hprobe. reflexivity.
Qed.

(** ** Properties of the loader *)

(** C9: when [getItem] is called with an absent reference, the error callback
    receives exactly the message "Expected reference within {@inheritdoc} tag"
    (once), the call returns undefined and throws nothing; the loader and the
    file system are not touched. *)
Theorem getItem_absent_reference :
  forall (reportError : string -> M unit) (st : State),
    getItem None reportError st
      = (reportError "Expected reference within {@inheritdoc} tag" ;; ret Js.Absent) st
    /\ getItem None record st
      = (Returned Js.Absent, logged (Reported "Expected reference within {@inheritdoc} tag") st)
    /\ reports (traceOf (snd (getItem None record st)))
       = reports (traceOf st) ++ ["Expected reference within {@inheritdoc} tag"]
    /\ fileAccesses (traceOf (snd (getItem None record st))) = fileAccesses (traceOf st)
    /\ this (snd (getItem None record st)) = this st.
Proof.
  intros reportError st.
  assert (Hrun : snd (getItem None record st)
                 = logged (Reported "Expected reference within {@inheritdoc} tag") st)
    by reflexivity.
  split; [reflexivity |]. split; [reflexivity |]. rewrite Hrun, logged_trace.
  split; [| split; [| reflexivity]].
  - rewrite reports_app. reflexivity.
  - rewrite fileAccesses_app. cbn [fileAccesses List.filter isFileAccess]. apply app_nil_r.
Qed.

(** C10: if [loadPackageIntoCache] throws (the manifest or the schema cannot
    be read or parsed, or the manifest violates the schema), the loader is
    left as it was: no cache entry is added or modified. *)
Theorem loadPackageIntoCache_throw_keeps_cache :
  forall (path : string) (st : State) (e : JsError),
    fst (loadPackageIntoCache path st) = Thrown e ->
    this (snd (loadPackageIntoCache path st)) = this st
    /\ cacheOf (snd (loadPackageIntoCache path st)) = cacheOf st.
Proof.
  intros path st e H.
  destruct (loadPackageIntoCache path st) as [outcome st'] eqn:Hrun.
  cbn [fst] in H. subst outcome. cbn [snd].
  destruct (throwing_load_keeps_loader path st st' e Hrun) as [Hthis Hcache].
  split; [exact Hthis | exact Hcache].
Qed.

(** The witness of C10: a manifest that is not JSON. *)
Lemma loadPackageIntoCache_throw_keeps_cache_witness :
  this (snd (loadPackageIntoCache "/proj/node_modules/broken/dist/broken.api.json" Scenario.fresh))
    = this Scenario.fresh
  /\ cacheOf (snd (loadPackageIntoCache "/proj/node_modules/broken/dist/broken.api.json"
                                        Scenario.fresh))
     = cacheOf Scenario.fresh.
Proof.
  apply (loadPackageIntoCache_throw_keeps_cache
           "/proj/node_modules/broken/dist/broken.api.json" Scenario.fresh
           (JsonParseError "/proj/node_modules/broken/dist/broken.api.json")).
  vm_compute. reflexivity.
Defined.

Lemma join_joinStrings args manifest :
  Path.join args = Some manifest -> exists segments, manifest = Path.joinStrings segments.
Proof.
  unfold Path.join. destruct (Path.assertStrings args) as [segments|]; [| discriminate].
  intros H. inversion H. exists segments. reflexivity.
Qed.

Lemma includes_inside needle before after :
  Js.includes needle (before +:+ needle +:+ after) = true.
Proof. apply includes_skip, includes_prefix. Qed.

(** An empty scope name adds no segment to the manifest location. *)
Lemma specManifestPath_empty_scope projectRoot package :
  specManifestPath projectRoot EmptyString package
  = Path.joinStrings [projectRoot; "node_modules"; package; "dist/" +:+ package +:+ ".api.json"].
Proof.
  unfold specManifestPath, Path.joinStrings. cbn [Path.join_loop].
  destruct (String.eqb projectRoot EmptyString); reflexivity.
Qed.

(** X21: for every reference with a non-empty packageName that is not cached
    and whose scopeName is a string (the empty string when the package has no
    scope), [getPackage] computes the manifest path as the join of the
    project root, [node_modules], the scope name, the package name and
    [dist/<packageName>.api.json]: that path is the one probed for existence
    and the one handed to [loadPackageIntoCache]. *)
Theorem getPackage_manifest_path :
  forall (reference : IApiDefinitionReference) (reportError : string -> M unit)
         (st : State) (scope : string),
    scopeName reference = Some scope ->
    packageName reference <> EmptyString ->
    cacheOf st !! cachePackageName reference = None ->
    getPackage reference reportError st
    = (if bool_decide (is_Some (files (world st)
             !! specManifestPath (_projectFolder (this st)) scope (packageName reference)))
       then docPackage <- loadPackageIntoCache
                 (specManifestPath (_projectFolder (this st)) scope (packageName reference)) ;;
            ret (Some docPackage)
       else reportError (notFoundMessage reference) ;; ret None)
        (logged (ExistsSync
                   (specManifestPath (_projectFolder (this st)) scope (packageName reference)))
                st).
Proof.
  intros reference reportError st scope Hscope Hname Hmiss.
  rewrite (getPackage_probe reference reportError st _ Hmiss Hname
             (join_manifestSegments _ _ _ Hscope)).
  unfold specManifestPath. rewrite joinStrings_single. reflexivity.
Qed.

(** The witness of X21: [foo] with an empty scope name, on a fresh loader. *)
Lemma getPackage_manifest_path_witness :
  fst (getPackage Scenario.fooWidgetRender record Scenario.fresh)
    = Returned (Some Scenario.firstFoo)
  /\ traceOf (snd (getPackage Scenario.fooWidgetRender record Scenario.fresh))
    = [ ExistsSync "/proj/package.json";
        ExistsSync "/proj/node_modules/foo/dist/foo.api.json";
        ReadFile "/proj/node_modules/foo/dist/foo.api.json";
        ReadFile "/lib/schemas/api-json-schema.json" ].
Proof.
  rewrite (getPackage_manifest_path Scenario.fooWidgetRender record Scenario.fresh EmptyString).
  - split; vm_compute; reflexivity.
  - reflexivity.
  - discriminate.
  - vm_compute. reflexivity.
Defined.

(** C3, where the code departs from it: the reference names the package
    [foo] and has no scopeName.  Lines 99-103 accept the absent scope for the
    cache key, but lines 115-121 pass it to [path.join] unguarded; [path.join]
    refuses the argument [undefined], so [getPackage] throws a TypeError: no
    manifest path is computed and the file system is not asked. *)
Lemma getPackage_absent_scope_throws :
  scopeName Scenario.fooWithoutScope = None
  /\ packageName Scenario.fooWithoutScope <> EmptyString
  /\ cacheOf Scenario.fresh !! cachePackageName Scenario.fooWithoutScope = None
  /\ Path.join (manifestSegments "/proj" Scenario.fooWithoutScope) = None
  /\ getPackage Scenario.fooWithoutScope record Scenario.fresh
     = (Thrown TypeError, Scenario.fresh).
Proof.
  repeat split; try discriminate; vm_compute; reflexivity.
Qed.

(** C5: for every reference that is not cached and whose computed manifest
    path does not exist on disk, [getPackage] calls the error callback once,
    with the message
    [@inheritdoc referenced package ("<packageName>") not found in node modules.],
    which contains the package name, and returns undefined. *)
Theorem getPackage_missing_manifest :
  forall (reference : IApiDefinitionReference) (reportError : string -> M unit)
         (st : State) (manifest : string),
    cacheOf st !! cachePackageName reference = None ->
    packageName reference <> EmptyString ->
    Path.join (manifestSegments (_projectFolder (this st)) reference) = Some manifest ->
    files (world st) !! manifest = None ->
    getPackage reference reportError st
      = (reportError (notFoundMessage reference) ;; ret None) (logged (ExistsSync manifest) st)
    /\ getPackage reference record st
      = (Returned None,
         logged (Reported (notFoundMessage reference)) (logged (ExistsSync manifest) st))
    /\ reports (traceOf (snd (getPackage reference record st)))
      = reports (traceOf st) ++ [notFoundMessage reference]
    /\ notFoundMessage reference
      = "@inheritdoc referenced package (" +:+ Js.quote +:+ packageName reference
          +:+ Js.quote +:+ ") not found in node modules."
    /\ Js.includes (packageName reference) (notFoundMessage reference) = true.
Proof.
  intros reference reportError st manifest Hmiss Hname Hjoin Hgone.
  assert (Hsame : Path.joinStrings [manifest] = manifest).
  { destruct (join_joinStrings _ _ Hjoin) as [segments ->]. apply joinStrings_single. }
  assert (Hrun : forall callback,
             getPackage reference callback st
             = (callback (notFoundMessage reference) ;; ret None)
                 (logged (ExistsSync manifest) st)).
  { intros callback. rewrite (getPackage_probe reference callback st manifest Hmiss Hname Hjoin).
    rewrite Hsame, Hgone. reflexivity. }
  split; [apply Hrun |]. split; [rewrite Hrun; reflexivity |].
  split; [| split; [reflexivity |]].
  - rewrite Hrun. change (snd ((record (notFoundMessage reference) ;; ret None)
                                 (logged (ExistsSync manifest) st)))
      with (logged (Reported (notFoundMessage reference)) (logged (ExistsSync manifest) st)).
    rewrite !logged_trace, !reports_app. cbn [reports]. rewrite app_nil_r. reflexivity.
  - unfold notFoundMessage.
    apply (includes_inside (packageName reference)
             ("@inheritdoc referenced package (" +:+ Js.quote)).
Qed.

(** The witness of C5: no package [nope] under [node_modules]. *)
Lemma getPackage_missing_manifest_witness :
  getPackage Scenario.missingPackage record Scenario.fresh
    = (Returned None,
       logged (Reported (notFoundMessage Scenario.missingPackage))
              (logged (ExistsSync "/proj/node_modules/nope/dist/nope.api.json") Scenario.fresh)).
Proof.
  apply (getPackage_missing_manifest Scenario.missingPackage record Scenario.fresh
           "/proj/node_modules/nope/dist/nope.api.json").
  - vm_compute. reflexivity.
  - discriminate.
  - reflexivity.
  - vm_compute. reflexivity.
Defined.




Lemma schemaErrorMessage_phrase errorDetail :
  Js.includes schemaPhrase (schemaErrorMessage errorDetail) = true.
Proof.
  apply (includes_inside schemaPhrase "ApiJsonGenerator validation error - output ").
Qed.

(** A manifest that the schema rejects: the run of [loadPackageIntoCache]. *)
Lemma schema_violation_run path st errorDetail doc schemaVerdict schemaDoc :
  files (world st) !! path = Some (Json (Some errorDetail) doc) ->
  files (world st) !! schemaPath st = Some (Json schemaVerdict schemaDoc) ->
  exists st', loadPackageIntoCache path st
              = (Thrown (Error (schemaErrorMessage errorDetail)), st')
              /\ reports (traceOf st') = reports (traceOf st).
Proof.
  intros Hfile Hschema.
  unfold loadPackageIntoCache. unfold bind at 1.
  rewrite (loadJsonFile_parsed _ _ _ _ Hfile). cbn [allocate].
  unfold bind at 1. cbn [moduleDirectory world dirname logged emit snd].
  unfold bind at 1.
  match goal with
  | |- context [loadJsonFile ?p ?s] =>
      assert (Hs : files (world s) !! p = Some (Json schemaVerdict schemaDoc))
        by exact Hschema;
      rewrite (loadJsonFile_parsed p s _ _ Hs)
  end.
  cbn [allocate]. unfold bind at 1. cbn [validateSchema schemaError].
  unfold schemaErrorCallback, bind, throw. rewrite emit_run.
  eexists. split; [reflexivity |].
  unfold traceOf, logged. cbn [emit snd world trace].
  rewrite !reports_app. cbn [reports]. rewrite !app_nil_r. reflexivity.
Qed.

(** The error passes through [getPackage] and [getItem]: whatever the
    callback is, it is not called, and nothing is returned. *)
Lemma getItem_schema_violation reference reportError st scope errorDetail doc
      schemaVerdict schemaDoc :
  scopeName reference = Some scope ->
  packageName reference <> EmptyString ->
  cacheOf st !! cachePackageName reference = None ->
  files (world st) !! specManifestPath (_projectFolder (this st)) scope (packageName reference)
    = Some (Json (Some errorDetail) doc) ->
  files (world st) !! schemaPath st = Some (Json schemaVerdict schemaDoc) ->
  fst (getPackage reference reportError st) = Thrown (Error (schemaErrorMessage errorDetail))
  /\ fst (getItem (Some reference) reportError st)
     = Thrown (Error (schemaErrorMessage errorDetail)).
Proof.
  intros Hscope Hname Hmiss Hfile Hschema.
  assert (Hrun : exists st', getPackage reference reportError st
                             = (Thrown (Error (schemaErrorMessage errorDetail)), st')).
  { rewrite (getPackage_probe reference reportError st _ Hmiss Hname
               (join_manifestSegments _ _ _ Hscope)).
    rewrite joinStrings_single. fold (specManifestPath (_projectFolder (this st)) scope
                                        (packageName reference)).
    rewrite Hfile. rewrite bool_decide_eq_true_2 by (eexists; reflexivity).
    destruct (schema_violation_run
                (specManifestPath (_projectFolder (this st)) scope (packageName reference))
                (logged (ExistsSync (specManifestPath (_projectFolder (this st)) scope
                                       (packageName reference))) st)
                errorDetail doc schemaVerdict schemaDoc Hfile Hschema) as [st' [Hload _]].
    exists st'. apply bind_thrown, Hload. }
  destruct Hrun as [st' Hrun]. rewrite (getItem_package_throws _ _ _ _ _ Hrun), Hrun.
  split; reflexivity.
Qed.

(** C6: for every manifest document that violates the bundled schema,
    [loadPackageIntoCache] throws an Error whose message contains
    "does not conform to api-json-schema.json"; nothing is returned, the error
    callback of the caller hears nothing, and the loader is unchanged. *)
Theorem loadPackageIntoCache_schema_violation :
  forall (path : string) (st : State) (errorDetail : string) (doc : IDocPackage)
         (schemaVerdict : option string) (schemaDoc : IDocPackage),
    files (world st) !! path = Some (Json (Some errorDetail) doc) ->
    files (world st) !! schemaPath st = Some (Json schemaVerdict schemaDoc) ->
    fst (loadPackageIntoCache path st) = Thrown (Error (schemaErrorMessage errorDetail))
    /\ Js.includes schemaPhrase (schemaErrorMessage errorDetail) = true
    /\ this (snd (loadPackageIntoCache path st)) = this st
    /\ reports (traceOf (snd (loadPackageIntoCache path st))) = reports (traceOf st).
Proof.
  intros path st errorDetail doc schemaVerdict schemaDoc Hfile Hschema.
  destruct (schema_violation_run path st errorDetail doc schemaVerdict schemaDoc Hfile Hschema)
    as [st' [Hrun Hreports]].
  destruct (throwing_load_keeps_loader _ _ _ _ Hrun) as [Hthis _].
  rewrite Hrun. cbn [fst snd].
  split; [reflexivity |]. split; [apply schemaErrorMessage_phrase |].
  split; [exact Hthis | exact Hreports].
Qed.

(** The witness of C6: the manifest of [bad] has no [exports]. *)
Lemma loadPackageIntoCache_schema_violation_witness :
  fst (loadPackageIntoCache "/proj/node_modules/bad/dist/bad.api.json" Scenario.fresh)
    = Thrown (Error (schemaErrorMessage "Missing required property: exports"))
  /\ Js.includes schemaPhrase (schemaErrorMessage "Missing required property: exports") = true
  /\ this (snd (loadPackageIntoCache "/proj/node_modules/bad/dist/bad.api.json" Scenario.fresh))
     = this Scenario.fresh
  /\ reports (traceOf (snd (loadPackageIntoCache "/proj/node_modules/bad/dist/bad.api.json"
                                                 Scenario.fresh)))
     = reports (traceOf Scenario.fresh).
Proof.
  apply (loadPackageIntoCache_schema_violation
           "/proj/node_modules/bad/dist/bad.api.json" Scenario.fresh
           "Missing required property: exports" Scenario.emptyDocument
           (Some "not an api file") Scenario.emptyDocument).
  - vm_compute. reflexivity.
  - vm_compute. reflexivity.
Defined.

(** The example of the specification where [Widget] is class-like: for a
    reference with packageName "foo", exportName "Widget" and memberName
    "render", resolved against a loaded package whose [exports.Widget] carries
    a [members] mapping, [getItem] returns the member item
    [exports.Widget.members.render] (not the export item) when it exists, and
    undefined when [members] has no [render]. *)
Theorem getItem_Widget_render :
  forall (reference : IApiDefinitionReference) (reportError : string -> M unit)
         (st st' : State) (docPackage : JsonObject) (widget : IDocItem)
         (classMembers : Js.object IDocItem),
    packageName reference = "foo" ->
    exportName reference = "Widget" ->
    memberName reference = Some "render" ->
    getPackage reference reportError st = (Returned (Some docPackage), st') ->
    Js.ownProperty "Widget" (exports (document docPackage)) = Some widget ->
    members widget = Some classMembers ->
    getItem (Some reference) reportError st
    = (Returned match Js.ownProperty "render" classMembers with
                | Some member => Js.Own member
                | None => Js.Absent
                end, st').
Proof.
  intros reference reportError st st' docPackage widget classMembers
         _ Hexport Hmember Hpackage Hwidget Hmembers.
  rewrite <- Hexport in Hwidget.
  rewrite (getItem_member reference reportError st st' docPackage widget classMembers "render"
             Hpackage Hwidget Hmembers Hmember); [| discriminate].
  unfold Js.get. destruct (Js.ownProperty "render" classMembers); reflexivity.
Qed.

(** On the project on disk: [foo] exports the class [Widget] with the method
    [render]. *)
Lemma getItem_Widget_render_witness :
  getItem (Some Scenario.fooWidgetRender) record Scenario.fresh
    = (Returned (Js.Own Scenario.render),
       snd (getPackage Scenario.fooWidgetRender record Scenario.fresh)).
Proof.
  apply (getItem_Widget_render Scenario.fooWidgetRender record Scenario.fresh
           (snd (getPackage Scenario.fooWidgetRender record Scenario.fresh))
           Scenario.firstFoo Scenario.widget [("render", Scenario.render)]).
  - reflexivity.
  - reflexivity.
  - reflexivity.
  - vm_compute. reflexivity.
  - reflexivity.
  - reflexivity.
Defined.

(** C1, where the code departs from it: two identical calls of [getPackage]
    for the scoped package [@ms/foo].  The first call stores the package under
    [foo], the second looks it up under [@ms/foo], misses, probes and reads
    the manifest and the schema again and returns a second object. *)
Theorem getPackage_scoped_reloads :
  fst (fst (Scenario.twice (getPackage Scenario.scopedFoo record) Scenario.fresh))
    = Returned (Some {| oid := 0; schemaError := None; document := Scenario.scopedFooPackage |})
  /\ fst (snd (Scenario.twice (getPackage Scenario.scopedFoo record) Scenario.fresh))
    = Returned (Some {| oid := 2; schemaError := None; document := Scenario.scopedFooPackage |})
  /\ fileAccesses
       (traceOf (snd (snd (Scenario.twice (getPackage Scenario.scopedFoo record) Scenario.fresh))))
    = fileAccesses
        (traceOf (snd (fst (Scenario.twice (getPackage Scenario.scopedFoo record) Scenario.fresh))))
      ++ [ ExistsSync "/proj/node_modules/@ms/foo/dist/foo.api.json";
           ReadFile "/proj/node_modules/@ms/foo/dist/foo.api.json";
           ReadFile "/lib/schemas/api-json-schema.json" ]
  /\ cachePackageName Scenario.scopedFoo = "@ms/foo"
  /\ storeKey "/proj/node_modules/@ms/foo/dist/foo.api.json" = Some "foo".
Proof. repeat split; vm_compute; reflexivity. Qed.

(** The same defect, seen from the other side: once [@ms/foo] is loaded, the
    package [foo] of no scope is taken from the cache entry that [@ms/foo]
    left under [foo]. *)
Example getPackage_scope_confusion :
  fst (getPackage Scenario.unscopedFoo record
         (snd (getPackage Scenario.scopedFoo record Scenario.fresh)))
  = Returned (Some {| oid := 0; schemaError := None; document := Scenario.scopedFooPackage |}).
Proof. vm_compute. reflexivity. Qed.

(** Without a scope and without dots in the package name the two keys agree,
    and the second call is served from the cache. *)
Example getPackage_unscoped_cached :
  getPackage Scenario.unscopedFoo record
    (snd (getPackage Scenario.unscopedFoo record Scenario.fresh))
  = (Returned (Some Scenario.firstFoo),
     snd (getPackage Scenario.unscopedFoo record Scenario.fresh)).
Proof.
  apply (getPackage_again_when_keys_agree Scenario.unscopedFoo record record Scenario.fresh).
  - intros manifest H. vm_compute in H. inversion H. reflexivity.
  - vm_compute. reflexivity.
Qed.

(** C2, where the code departs from it: [foo] exports the function [helper],
    which has no [members]; asking for its member [render] makes [getItem]
    throw a TypeError instead of returning undefined. *)
Theorem getItem_member_of_function_throws :
  Js.ownProperty "helper" (exports Scenario.fooPackage) = Some Scenario.helper
  /\ members Scenario.helper = None
  /\ fst (getItem (Some Scenario.fooHelperRender) record Scenario.fresh) = Thrown TypeError.
Proof. repeat split; vm_compute; reflexivity. Qed.

(** C4, where the code departs from it: the manifest of [foo] has an export
    [Widget] that carries no [members] mapping, so [exports.Widget] exists and
    [members.render] is absent.  [getItem] for the reference with packageName
    "foo", exportName "Widget" and memberName "render" throws a TypeError
    instead of returning undefined: line 73 applies [in] to [undefined]. *)
Theorem getItem_Widget_without_members_throws :
  Js.ownProperty "Widget" (exports Bare.fooPackage) = Some Bare.widget
  /\ members Bare.widget = None
  /\ fst (getPackage Scenario.fooWidgetRender record Bare.fresh)
     = Returned (Some {| oid := 0; schemaError := None; document := Bare.fooPackage |})
  /\ fst (getItem (Some Scenario.fooWidgetRender) record Bare.fresh) = Thrown TypeError.
Proof. repeat split; vm_compute; reflexivity. Qed.

(** C8: for every reference whose exportName is absent from the exports
    mapping of a package that [getPackage] has resolved (from the cache or by
    a successful load), [getItem] returns undefined, and the error callback
    has not been called at any point of the call. *)
Theorem getItem_absent_export :
  forall (reference : IApiDefinitionReference) (st st' : State) (docPackage : JsonObject),
    getPackage reference record st = (Returned (Some docPackage), st') ->
    Js.ownProperty (exportName reference) (exports (document docPackage)) = None ->
    getItem (Some reference) record st = (Returned Js.Absent, st')
    /\ reports (traceOf (snd (getItem (Some reference) record st))) = reports (traceOf st).
Proof.
  intros reference st st' docPackage Hpackage Hexport.
  rewrite (getItem_unknown_export _ _ _ _ _ Hpackage Hexport). cbn [snd].
  split; [reflexivity |].
  destruct (getPackage_reports reference st) as [Hsame | [_ Hnone]];
    rewrite Hpackage in *; cbn [fst snd] in *; [exact Hsame | discriminate].
Qed.

(** The witness of C8: [foo] has no export [toString]. *)
Lemma getItem_absent_export_witness :
  getItem (Some Scenario.fooToString) record Scenario.fresh
    = (Returned Js.Absent, snd (getPackage Scenario.fooToString record Scenario.fresh))
  /\ reports (traceOf (snd (getItem (Some Scenario.fooToString) record Scenario.fresh)))
     = reports (traceOf Scenario.fresh).
Proof.
  apply (getItem_absent_export Scenario.fooToString Scenario.fresh
           (snd (getPackage Scenario.fooToString record Scenario.fresh)) Scenario.firstFoo).
  - vm_compute. reflexivity.
  - reflexivity.
Defined.
(** ** The store key of a manifest path *)

Lemma split_app_any sep (a b : string) :
  Js.split sep (a +:+ String sep b) = Js.split sep a ++ Js.split sep b.
Proof.
  induction a as [|c a IH].
  - change (EmptyString +:+ String sep b) with (String sep b).
    cbn [Js.split]. rewrite Ascii.eqb_refl. reflexivity.
  - change (String c a +:+ String sep b) with (String c (a +:+ String sep b)).
    cbn [Js.split]. rewrite IH.
    destruct (Ascii.eqb c sep); [reflexivity |].
    destruct (split_shift sep a) as [piece Hpiece].
    destruct (Js.split sep a); [discriminate | reflexivity].
Qed.

Lemma split_head_free sep s :
  exists piece pieces, Js.split sep s = piece :: pieces /\ charFree sep piece = true.
Proof.
  induction s as [|c s [piece [pieces [IH Hfree]]]]; cbn [Js.split].
  - exists EmptyString, []. split; reflexivity.
  - destruct (Ascii.eqb c sep) eqn:E.
    + exists EmptyString, (Js.split sep s). split; reflexivity.
    + rewrite IH. exists (String c piece), pieces. split; [reflexivity |].
      cbn [charFree]. rewrite E, Hfree. reflexivity.
Qed.

Lemma split_charFree sep s : charFree sep s = true -> Js.split sep s = [s].
Proof.
  induction s as [|c s IH]; [reflexivity |].
  cbn [charFree Js.split]. intros H. apply andb_prop in H as [Hc Hs].
  apply negb_true_iff in Hc. rewrite Hc, (IH Hs). reflexivity.
Qed.

Lemma slashFree_app a b : slashFree (a +:+ b) = slashFree a && slashFree b.
Proof.
  induction a as [|c a IH]; [reflexivity |].
  change (String c a +:+ b) with (String c (a +:+ b)).
  cbn [slashFree]. rewrite IH. apply andb_assoc.
Qed.

Lemma normalizeArray_loop_app l1 l2 b res :
  Path.normalizeArray_loop (l1 ++ l2) b res
  = Path.normalizeArray_loop l2 b (rev (Path.normalizeArray_loop l1 b res)).
Proof.
  revert res. induction l1 as [|p l1 IH]; intros res.
  - cbn [app Path.normalizeArray_loop]. rewrite rev_involutive. reflexivity.
  - cbn [app Path.normalizeArray_loop].
    destruct (String.eqb p EmptyString || String.eqb p "."); [apply IH |].
    destruct (String.eqb p "..").
    + destruct res as [|top below].
      * destruct b; apply IH.
      * destruct (negb (String.eqb top "..")); [apply IH |]. destruct b; apply IH.
    + apply IH.
Qed.

(** A name at the end of the components stays at the end. *)
Lemma normalizeArray_last_name l name b :
  plainName name = true ->
  Path.normalizeArray (l ++ [name]) b = Path.normalizeArray l b ++ [name].
Proof.
  intros Hname. unfold Path.normalizeArray. rewrite normalizeArray_loop_app.
  rewrite plainName_spec in Hname. apply andb_prop in Hname as [H1 H2].
  apply negb_true_iff in H1, H2.
  cbn [Path.normalizeArray_loop]. rewrite H1, H2. cbn [rev].
  rewrite rev_involutive. reflexivity.
Qed.

Lemma filter_last_kept {A : Type} (f : A -> bool) (l : list A) (x d : A) :
  f x = true -> List.last (List.filter f (l ++ [x])) d = x.
Proof.
  intros H. rewrite List.filter_app. cbn [List.filter]. rewrite H. apply List.last_last.
Qed.

(** The base name of a normalised path is the last component of the path,
    when that component is a name. *)
Lemma basename_normalize s l name :
  Js.split "/" s = l ++ [name] -> plainName name = true ->
  Path.basename (Path.normalize s) = name.
Proof.
  intros Hsplit Hname.
  assert (Hnonempty : negb (String.eqb name EmptyString) = true).
  { unfold plainName in Hname. apply andb_prop in Hname as [Hname _].
    apply andb_prop in Hname as [Hname _]. exact Hname. }
  pose proof (split_pieces s) as Hfree. rewrite Hsplit in Hfree.
  apply Forall_app in Hfree as [Hl Hn].
  unfold Path.normalize. cbv zeta.
  set (absolute := Path.isAbsolute s). set (trailing := Path.endsWithSlash s).
  rewrite Hsplit, (normalizeArray_last_name _ _ _ Hname).
  set (kept := Path.normalizeArray l (negb absolute)).
  assert (Hkept : Forall (fun p => slashFree p = true) (kept ++ [name])).
  { apply Forall_app. split; [| exact Hn].
    apply normalizeArray_loop_Forall; [reflexivity | exact Hl | constructor]. }
  assert (Hbody : Js.split "/" (String.concat "/" (kept ++ [name])) = kept ++ [name]).
  { apply split_concat; [destruct kept; discriminate | exact Hkept]. }
  set (body := String.concat "/" (kept ++ [name])) in *.
  assert (Hfull : String.eqb body EmptyString = false).
  { apply String.eqb_neq. intros E. rewrite E in Hbody. cbn [Js.split] in Hbody.
    destruct kept as [|k [|k' kept']]; cbn [app] in Hbody; inversion Hbody.
    subst name. discriminate. }
  rewrite Hfull. cbn [andb negb]. rewrite Hfull. cbn [andb negb].
  assert (Htail : forall rest,
             Js.split "/" rest = kept ++ [name] \/ Js.split "/" rest = (kept ++ [name]) ++ [EmptyString] ->
             forall front,
               List.last (List.filter (fun part => negb (String.eqb part EmptyString))
                                      (front ++ Js.split "/" rest)) EmptyString = name).
  { intros rest [H | H] front; rewrite H.
    - rewrite app_assoc. apply filter_last_kept, Hnonempty.
    - rewrite List.filter_app, List.filter_app. cbn [List.filter].
      rewrite String.eqb_refl. cbn [negb]. rewrite app_nil_r, <- List.filter_app.
      rewrite app_assoc. apply filter_last_kept, Hnonempty. }
  assert (Hrest : Js.split "/" (if trailing then body +:+ "/" else body) = kept ++ [name]
                  \/ Js.split "/" (if trailing then body +:+ "/" else body)
                     = (kept ++ [name]) ++ [EmptyString]).
  { destruct trailing; [right | left; exact Hbody].
    rewrite split_app, Hbody. reflexivity. }
  unfold Path.basename. destruct absolute.
  - change ("/" +:+ ?rest) with (EmptyString +:+ String "/" rest).
    rewrite split_app. apply (Htail _ Hrest).
  - change (EmptyString +:+ ?rest) with rest. apply (Htail _ Hrest []).
Qed.

Lemma join_loop_nonempty args joined :
  joined <> EmptyString -> Path.join_loop args joined <> EmptyString.
Proof.
  revert joined. induction args as [|segment args IH]; intros joined H; [exact H |].
  cbn [Path.join_loop]. destruct (String.eqb segment EmptyString) eqn:E; [apply IH, H |].
  apply String.eqb_neq in H. rewrite H. apply IH. destruct joined; discriminate.
Qed.

Lemma join_loop_last args joined last :
  last <> EmptyString -> Path.join_loop args joined <> EmptyString ->
  Path.join_loop (args ++ [last]) joined = Path.join_loop args joined +:+ "/" +:+ last.
Proof.
  intros Hlast. revert joined. induction args as [|segment args IH]; intros joined H.
  - cbn [app Path.join_loop] in *. apply String.eqb_neq in Hlast, H. rewrite Hlast, H.
    reflexivity.
  - cbn [app Path.join_loop] in *.
    destruct (String.eqb segment EmptyString); [apply IH, H |].
    destruct (String.eqb joined EmptyString); apply IH, H.
Qed.

Lemma manifest_name_plain package : plainName (package +:+ ".api.json") = true.
Proof.
  unfold plainName.
  assert (H : forall s, s <> package +:+ ".api.json" ->
                        negb (String.eqb (package +:+ ".api.json") s) = true).
  { intros s Hs. apply negb_true_iff, String.eqb_neq. congruence. }
  rewrite !H; [reflexivity | | |].
  - destruct package as [|a [|b [|c package]]]; discriminate.
  - destruct package as [|a [|b package]]; discriminate.
  - destruct package; discriminate.
Qed.

(** Line 152 on the path of lines 115-121: whatever the project folder and
    the scope, the store key is the package name up to its first dot. *)
Lemma storeKey_manifest projectRoot scope package :
  slashFree package = true ->
  storeKey (specManifestPath projectRoot scope package) = Js.shift (Js.split "." package).
Proof.
  intros Hfree. unfold specManifestPath, Path.joinStrings.
  set (name := package +:+ ".api.json").
  assert (Hname : slashFree name = true) by (unfold name; rewrite slashFree_app, Hfree; reflexivity).
  set (front := Path.join_loop [projectRoot; "node_modules"; scope; package] EmptyString).
  assert (Hfront : front <> EmptyString).
  { unfold front. cbn [Path.join_loop]. rewrite String.eqb_refl.
    destruct (String.eqb projectRoot EmptyString) eqn:E.
    - apply (join_loop_nonempty [scope; package]). discriminate.
    - cbn [String.eqb]. apply (join_loop_nonempty [scope; package]).
      apply String.eqb_neq in E. destruct projectRoot; [congruence | discriminate]. }
  assert (Hjoined : Path.join_loop
                      [projectRoot; "node_modules"; scope; package; "dist/" +:+ name]
                      EmptyString
                    = front +:+ String "/" ("dist" +:+ String "/" name)).
  { apply (join_loop_last [projectRoot; "node_modules"; scope; package] EmptyString
             ("dist/" +:+ name)); [discriminate | exact Hfront]. }
  rewrite Hjoined.
  unfold storeKey.
  rewrite (basename_normalize _ (Js.split "/" front ++ ["dist"]) name).
  - unfold name. change (package +:+ ".api.json") with (package +:+ String "." "api.json").
    rewrite split_app_any.
    destruct (split_shift "." package) as [piece Hpiece].
    destruct (Js.split "." package); [discriminate | reflexivity].
  - rewrite !split_app, (split_slashFree name Hname), <- app_assoc. reflexivity.
  - apply manifest_name_plain.
Qed.

(** ** One call, step by step *)

Lemma storeKey_shape path :
  exists key, storeKey path = Some key /\ slashFree key = true /\ charFree "." key = true.
Proof.
  unfold storeKey.
  destruct (split_head_free "." (Path.basename path)) as [piece [pieces [Hsplit Hfree]]].
  exists piece. rewrite Hsplit. split; [reflexivity |]. split; [| exact Hfree].
  apply (storeKey_slashFree path). unfold storeKey. rewrite Hsplit. reflexivity.
Qed.

Local Ltac unchanged_loader :=
  cbn [snd fst logged emit this world files dirname nextOid _cache _projectFolder];
  split; [reflexivity |]; split; [reflexivity |]; split; [reflexivity |];
  split; [cbn; lia |]; left; split; [reflexivity | discriminate].

(** What [loadPackageIntoCache] leaves behind, whether it returns or throws:
    the disk, the module directory and the project folder as they were, and
    the cache either as it was or with one entry set, to the object parsed
    from the manifest, under the store key of the path. *)
Lemma loadPackageIntoCache_step path st :
  files (world (snd (loadPackageIntoCache path st))) = files (world st)
  /\ dirname (world (snd (loadPackageIntoCache path st))) = dirname (world st)
  /\ _projectFolder (this (snd (loadPackageIntoCache path st))) = _projectFolder (this st)
  /\ nextOid (world st) <= nextOid (world (snd (loadPackageIntoCache path st)))
  /\ ((cacheOf (snd (loadPackageIntoCache path st)) = cacheOf st
       /\ forall docPackage, fst (loadPackageIntoCache path st) <> Returned docPackage)
      \/ exists key doc,
           storeKey path = Some key
           /\ files (world st) !! path = Some (Json None doc)
           /\ fst (loadPackageIntoCache path st)
              = Returned {| oid := nextOid (world st); schemaError := None; document := doc |}
           /\ cacheOf (snd (loadPackageIntoCache path st))
              = <[key := {| oid := nextOid (world st); schemaError := None; document := doc |}]>
                  (cacheOf st)
           /\ nextOid (world (snd (loadPackageIntoCache path st))) = nextOid (world st) + 2).
Proof.
  destruct (storeKey_shape path) as [key [Hkey _]].
  unfold cacheOf. remember (loadPackageIntoCache path st) as run eqn:Hrun.
  unfold loadPackageIntoCache in Hrun.
  destruct (files (world st) !! path) as [[|err doc]|] eqn:Hfile.
  - rewrite (bind_thrown _ _ _ _ _ (loadJsonFile_malformed _ _ Hfile)) in Hrun.
    subst run. unchanged_loader.
  - unfold bind at 1 in Hrun.
    rewrite (loadJsonFile_parsed _ _ _ _ Hfile) in Hrun. cbn [allocate] in Hrun.
    unfold bind at 1 in Hrun. cbn [moduleDirectory world dirname logged emit snd] in Hrun.
    unfold bind at 1 in Hrun.
    match type of Hrun with
    | context [loadJsonFile ?p ?s] =>
        destruct (files (world s) !! p) as [[|serr sdoc]|] eqn:Hschema;
        [ rewrite (loadJsonFile_malformed p s Hschema) in Hrun
        | rewrite (loadJsonFile_parsed p s _ _ Hschema) in Hrun
        | rewrite (loadJsonFile_missing p s Hschema) in Hrun ]
    end.
    + subst run. unchanged_loader.
    + cbn [allocate logged emit snd] in Hrun. unfold bind at 1 in Hrun.
      cbn [validateSchema schemaError] in Hrun.
      destruct err as [detail|].
      * unfold schemaErrorCallback, bind, throw, emit in Hrun.
        subst run. unchanged_loader.
      * cbn [ret] in Hrun. unfold bind at 1 in Hrun. rewrite Hkey in Hrun.
        cbn [cacheSet ret snd fst] in Hrun. unfold bind in Hrun.
        subst run.
        cbn [snd fst this world files dirname nextOid _cache _projectFolder].
        split; [reflexivity |]. split; [reflexivity |]. split; [reflexivity |].
        split; [cbn; lia |]. right. exists key, doc.
        split; [exact Hkey |]. split; [reflexivity |]. split; [reflexivity |].
        split; [reflexivity | cbn; lia].
    + subst run. unchanged_loader.
  - rewrite (bind_thrown _ _ _ _ _ (loadJsonFile_missing _ _ Hfile)) in Hrun.
    subst run. unchanged_loader.
Qed.

Lemma follows_same st st' :
  this st' = this st -> files (world st') = files (world st) ->
  dirname (world st') = dirname (world st) -> nextOid (world st') = nextOid (world st) ->
  follows st st'.
Proof.
  intros Hthis Hfiles Hdir Hoid. unfold follows, cacheOf. rewrite Hthis, Hoid.
  split; [exact Hfiles |]. split; [exact Hdir |]. split; [reflexivity |].
  split; [lia |]. left. reflexivity.
Qed.

Lemma follows_load path st st0 :
  this st0 = this st -> files (world st0) = files (world st) ->
  dirname (world st0) = dirname (world st) -> nextOid (world st0) = nextOid (world st) ->
  follows st (snd (loadPackageIntoCache path st0)).
Proof.
  intros Hthis Hfiles Hdir Hoid.
  destruct (loadPackageIntoCache_step path st0) as [F [D [P [N C]]]].
  unfold follows, cacheOf in *. rewrite F, D, P, Hfiles, Hdir, Hthis, <- Hoid.
  split; [reflexivity |]. split; [reflexivity |]. split; [reflexivity |].
  split; [exact N |].
  destruct C as [[C _] | [key [doc [Hkey [_ [_ [C N']]]]]]].
  - left. rewrite C, Hthis. reflexivity.
  - right. exists path, key, doc. rewrite C, Hthis. split; [exact Hkey |].
    split; [reflexivity | exact N'].
Qed.

(** After [getPackage] has returned or thrown, [getItem] does nothing more
    to the state. *)
Lemma getItem_state reference reportError st :
  snd (getItem (Some reference) reportError st) = snd (getPackage reference reportError st).
Proof.
  unfold getItem, bind.
  destruct (getPackage reference reportError st) as [[[docPackage|]|e] st']; cbn [snd ret];
    [| reflexivity | reflexivity].
  destruct (Js.has (exportName reference) (exports (document docPackage))); [| reflexivity].
  destruct (Js.truthy (memberName reference)); [| reflexivity].
  destruct (membersOf _) as [classMembers|]; [| reflexivity].
  destruct (Js.has _ classMembers); reflexivity.
Qed.

Lemma getPackage_follows reference st : follows st (snd (getPackage reference record st)).
Proof.
  destruct (cacheOf st !! cachePackageName reference) as [cached|] eqn:Hcache.
  { rewrite (getPackage_cached _ _ _ _ Hcache). apply follows_same; reflexivity. }
  destruct (String.eqb (packageName reference) EmptyString) eqn:Hname.
  { apply String.eqb_eq in Hname. rewrite (getPackage_local _ _ _ Hcache Hname).
    apply follows_same; reflexivity. }
  apply String.eqb_neq in Hname.
  destruct (Path.join (manifestSegments (_projectFolder (this st)) reference))
    as [manifest|] eqn:Hjoin.
  2:{ rewrite (getPackage_join_throws _ _ _ Hcache Hname Hjoin).
      apply follows_same; reflexivity. }
  rewrite (getPackage_probe _ _ _ _ Hcache Hname Hjoin).
  destruct (bool_decide _); [| apply follows_same; reflexivity].
  unfold bind.
  pose proof (follows_load manifest st
                (logged (ExistsSync (Path.joinStrings [manifest])) st)
                eq_refl eq_refl eq_refl eq_refl) as H.
  destruct (loadPackageIntoCache manifest _) as [[loaded|e] st1]; exact H.
Qed.

Lemma perform_follows call st : follows st (perform call st).
Proof.
  destruct call as [[reference|]|reference|path]; cbn [perform].
  - rewrite getItem_state. apply getPackage_follows.
  - apply follows_same; reflexivity.
  - apply getPackage_follows.
  - apply follows_load; reflexivity.
Qed.

Lemma follows_keys_simple st st' :
  follows st st' -> storedKeysSimple st -> storedKeysSimple st'.
Proof.
  intros [_ [_ [_ [_ [Hsame | [path [key [doc [Hkey [Hins _]]]]]]]]]] Hsimple k Hk.
  - rewrite Hsame in Hk. apply Hsimple, Hk.
  - rewrite Hins in Hk. destruct (decide (key = k)) as [<-|Hne].
    + destruct (storeKey_shape path) as [key' [Hkey' Hshape]].
      rewrite Hkey in Hkey'. inversion Hkey'; subst key'. exact Hshape.
    + rewrite lookup_insert_ne in Hk by exact Hne. apply Hsimple, Hk.
Qed.

Lemma follows_keys_kept st st' key :
  follows st st' -> is_Some (cacheOf st !! key) -> is_Some (cacheOf st' !! key).
Proof.
  intros [_ [_ [_ [_ [Hsame | [path [k [doc [_ [Hins _]]]]]]]]]] Hk.
  - rewrite Hsame. exact Hk.
  - rewrite Hins. destruct (decide (k = key)) as [<-|Hne].
    + rewrite lookup_insert_eq. eexists; reflexivity.
    + rewrite lookup_insert_ne by exact Hne. exact Hk.
Qed.

Lemma follows_sound st st' : follows st st' -> cacheSound st -> cacheSound st'.
Proof.
  intros [_ [_ [_ [Hle [Hsame | [path [k [doc [_ [Hins Hnext]]]]]]]]]] [Hold Hinj].
  - split.
    + intros key obj H. rewrite Hsame in H. specialize (Hold _ _ H). lia.
    + intros key key' obj obj'. rewrite Hsame. apply Hinj.
  - assert (Hlook : forall key obj,
               cacheOf st' !! key = Some obj ->
               (key = k /\ oid obj = nextOid (world st))
               \/ (key <> k /\ cacheOf st !! key = Some obj)).
    { intros key obj H. rewrite Hins in H. destruct (decide (k = key)) as [<-|Hne].
      - rewrite lookup_insert_eq in H. inversion H. left. split; reflexivity.
      - rewrite lookup_insert_ne in H by exact Hne. right. split; [congruence | exact H]. }
    split.
    + intros key obj H. destruct (Hlook _ _ H) as [[_ Ho] | [_ Ho]].
      * lia.
      * specialize (Hold _ _ Ho). lia.
    + intros key key' obj obj' H H' Hoid.
      destruct (Hlook _ _ H) as [[-> Ho] | [_ Ho]];
        destruct (Hlook _ _ H') as [[-> Ho'] | [_ Ho']].
      * reflexivity.
      * specialize (Hold _ _ Ho'). lia.
      * specialize (Hold _ _ Ho). lia.
      * exact (Hinj _ _ _ _ Ho Ho' Hoid).
Qed.

Lemma performAll_follows (P : State -> Prop) :
  (forall st st', follows st st' -> P st -> P st') ->
  forall calls st, P st -> P (performAll calls st).
Proof.
  intros Hstep calls. induction calls as [|call calls IH]; intros st H; [exact H |].
  cbn [performAll]. apply IH, (Hstep st), H. apply perform_follows.
Qed.

Lemma split_head_prefix sep s piece pieces :
  Js.split sep s = piece :: pieces -> Js.startsWith piece s = true.
Proof.
  revert piece pieces. induction s as [|c s IH]; intros piece pieces H; cbn [Js.split] in H.
  - inversion H. reflexivity.
  - destruct (Ascii.eqb c sep).
    + inversion H. reflexivity.
    + destruct (Js.split sep s) as [|p ps] eqn:E.
      * inversion H. cbn [Js.startsWith]. rewrite Ascii.eqb_refl. reflexivity.
      * inversion H; subst. cbn [Js.startsWith]. rewrite Ascii.eqb_refl.
        eapply IH. reflexivity.
Qed.

(** A conforming manifest, the schema readable: the run of
    [loadPackageIntoCache]. *)
Lemma conforming_run path st doc schemaVerdict schemaDoc key :
  files (world st) !! path = Some (Json None doc) ->
  files (world st) !! schemaPath st = Some (Json schemaVerdict schemaDoc) ->
  storeKey path = Some key ->
  exists st',
    loadPackageIntoCache path st
    = (Returned {| oid := nextOid (world st); schemaError := None; document := doc |}, st')
    /\ cacheOf st'
       = <[key := {| oid := nextOid (world st); schemaError := None; document := doc |}]>
           (cacheOf st)
    /\ traceOf st' = traceOf st ++ [ReadFile path; ReadFile (schemaPath st)].
Proof.
  intros Hfile Hschema Hkey.
  unfold loadPackageIntoCache. unfold bind at 1.
  rewrite (loadJsonFile_parsed _ _ _ _ Hfile). cbn [allocate].
  unfold bind at 1. cbn [moduleDirectory world dirname logged emit snd].
  unfold bind at 1.
  match goal with
  | |- context [loadJsonFile ?p ?s] =>
      assert (Hs : files (world s) !! p = Some (Json schemaVerdict schemaDoc))
        by exact Hschema;
      rewrite (loadJsonFile_parsed p s _ _ Hs)
  end.
  cbn [allocate]. unfold bind at 1. cbn [validateSchema schemaError ret].
  unfold bind at 1. rewrite Hkey. cbn [cacheSet]. unfold bind. cbn [ret].
  eexists. split; [reflexivity |]. split; [reflexivity |].
  unfold traceOf, logged, schemaPath. cbn [emit snd world trace dirname].
  rewrite <- app_assoc. reflexivity.
Qed.

(** The first piece of [split] is the whole string, or the part of it before
    the first separator. *)
Lemma split_head_cut sep s piece pieces :
  Js.split sep s = piece :: pieces ->
  s = piece \/ exists rest, s = piece +:+ String sep rest.
Proof.
  revert piece pieces. induction s as [|c s IH]; intros piece pieces H; cbn [Js.split] in H.
  - inversion H. left. reflexivity.
  - destruct (Ascii.eqb c sep) eqn:E.
    + apply Ascii.eqb_eq in E. subst c. inversion H. right. exists s. reflexivity.
    + destruct (Js.split sep s) as [|p ps] eqn:Hs.
      * destruct (split_shift sep s) as [q Hq]. rewrite Hs in Hq. discriminate.
      * inversion H; subst. destruct (IH p _ eq_refl) as [-> | [rest ->]].
        -- left. reflexivity.
        -- right. exists rest. reflexivity.
Qed.

(** ** Further properties *)

(** X1: the constructor asks once whether [package.json] exists in the
    project folder and reads nothing; without that file it throws an Error
    that names the folder, with it the new loader has the folder and an empty
    cache. *)
Theorem construct_outcome :
  forall (folder : string) (w : World),
    trace (snd (construct folder w))
      = trace w ++ [ExistsSync (Path.joinStrings [folder; "package.json"])]
    /\ files (snd (construct folder w)) = files w
    /\ nextOid (snd (construct folder w)) = nextOid w
    /\ (files w !! Path.joinStrings [folder; "package.json"] = None ->
        fst (construct folder w)
        = Thrown (Error ("An NPM project was not found in the specified folder: " +:+ folder)))
    /\ (forall content,
           files w !! Path.joinStrings [folder; "package.json"] = Some content ->
           fst (construct folder w) = Returned {| _cache := ∅; _projectFolder := folder |}).
Proof.
  intros folder w. unfold construct. cbv zeta.
  destruct (files w !! Path.joinStrings [folder; "package.json"]) as [content|] eqn:H.
  - rewrite bool_decide_eq_true_2 by (eexists; reflexivity). cbn [negb fst snd trace files nextOid].
    repeat split; intros; try discriminate; reflexivity.
  - rewrite bool_decide_eq_false_2 by (intros [x Hx]; discriminate).
    cbn [negb fst snd trace files nextOid].
    repeat split; intros; try discriminate; reflexivity.
Qed.

(** X2: [getItem] adds no effect of its own to those of [getPackage]: the
    state after [getItem] is the state after [getPackage], an error thrown by
    [getPackage] leaves [getItem] as it is, and a package that is not
    resolved makes [getItem] return undefined. *)
Theorem getItem_runs_getPackage_only :
  forall (reference : IApiDefinitionReference) (reportError : string -> M unit) (st : State),
    snd (getItem (Some reference) reportError st) = snd (getPackage reference reportError st)
    /\ (forall e, fst (getPackage reference reportError st) = Thrown e ->
                  fst (getItem (Some reference) reportError st) = Thrown e)
    /\ (fst (getPackage reference reportError st) = Returned None ->
        fst (getItem (Some reference) reportError st) = Returned Js.Absent).
Proof.
  intros reference reportError st. split; [apply getItem_state |].
  destruct (getPackage reference reportError st) as [outcome st'] eqn:Hrun.
  cbn [fst]. split.
  - intros e ->. rewrite (getItem_package_throws _ _ _ _ _ Hrun). reflexivity.
  - intros ->. rewrite (getItem_no_package _ _ _ _ Hrun). reflexivity.
Qed.

(** X3: with no memberName (absent or empty), [getItem] returns the export
    item itself for every exportName that is a key of the package's exports. *)
Theorem getItem_export_item :
  forall (reference : IApiDefinitionReference) (reportError : string -> M unit)
         (st st' : State) (docPackage : JsonObject) (item : IDocItem),
    getPackage reference reportError st = (Returned (Some docPackage), st') ->
    Js.ownProperty (exportName reference) (exports (document docPackage)) = Some item ->
    Js.truthy (memberName reference) = false ->
    getItem (Some reference) reportError st = (Returned (Js.Own item), st').
Proof.
  intros reference reportError st st' docPackage item Hpackage Hexport Hmember.
  rewrite (getItem_export _ _ _ _ _ Hpackage Hmember).
  unfold Js.get. rewrite Hexport. reflexivity.
Qed.

Lemma getItem_export_item_witness :
  getItem (Some Tour.fooGadget) record Scenario.fresh
  = (Returned (Js.Own Scenario.gadget), Tour.fooLoaded).
Proof.
  apply (getItem_export_item Tour.fooGadget record Scenario.fresh Tour.fooLoaded
           Scenario.firstFoo Scenario.gadget).
  - vm_compute. reflexivity.
  - reflexivity.
  - reflexivity.
Defined.

(** X4: an exportName that is not a key of the package's exports resolves to
    undefined, whatever the memberName and whatever the callback; [getItem]
    leaves the state as [getPackage] left it. *)
Theorem getItem_export_not_found :
  forall (reference : IApiDefinitionReference) (reportError : string -> M unit)
         (st st' : State) (docPackage : JsonObject),
    getPackage reference reportError st = (Returned (Some docPackage), st') ->
    Js.ownProperty (exportName reference) (exports (document docPackage)) = None ->
    getItem (Some reference) reportError st = (Returned Js.Absent, st').
Proof.
  intros reference reportError st st' docPackage Hpackage Hexport.
  exact (getItem_unknown_export _ _ _ _ _ Hpackage Hexport).
Qed.

Lemma getItem_export_not_found_witness :
  getItem (Some Tour.fooUnknown) record Scenario.fresh = (Returned Js.Absent, Tour.fooLoaded).
Proof.
  apply (getItem_export_not_found Tour.fooUnknown record Scenario.fresh Tour.fooLoaded
           Scenario.firstFoo).
  - vm_compute. reflexivity.
  - reflexivity.
Defined.

(** X5: for an export that carries a members mapping and a non-empty
    memberName, [getItem] returns the member of that name when the mapping
    has it and undefined when it has not; the export item itself is never the
    result. *)
Theorem getItem_member_resolution :
  forall (reference : IApiDefinitionReference) (reportError : string -> M unit)
         (st st' : State) (docPackage : JsonObject) (item : IDocItem)
         (classMembers : Js.object IDocItem) (member : string),
    getPackage reference reportError st = (Returned (Some docPackage), st') ->
    Js.ownProperty (exportName reference) (exports (document docPackage)) = Some item ->
    members item = Some classMembers ->
    memberName reference = Some member -> member <> EmptyString ->
    getItem (Some reference) reportError st
    = (Returned match Js.ownProperty member classMembers with
                | Some found => Js.Own found
                | None => Js.Absent
                end, st').
Proof.
  intros reference reportError st st' docPackage item classMembers member
         Hpackage Hexport Hmembers Hmember Hfull.
  rewrite (getItem_member _ _ _ _ _ _ _ _ Hpackage Hexport Hmembers Hmember Hfull).
  unfold Js.get. reflexivity.
Qed.

Lemma getItem_member_resolution_witness :
  getItem (Some Tour.fooGadgetRefresh) record Scenario.fresh
  = (Returned (Js.Own (DocItem "method" None)), Tour.fooLoaded).
Proof.
  apply (getItem_member_resolution Tour.fooGadgetRefresh record Scenario.fresh Tour.fooLoaded
           Scenario.firstFoo Scenario.gadget [("refresh", DocItem "method" None)] "refresh").
  - vm_compute. reflexivity.
  - reflexivity.
  - reflexivity.
  - reflexivity.
  - discriminate.
Defined.

(** X6: for an export that carries no members mapping, every non-empty
    memberName makes [getItem] throw a TypeError (the [in] operator at line 73
    is applied to undefined); the state is the one [getPackage] left. *)
Theorem getItem_member_without_members :
  forall (reference : IApiDefinitionReference) (reportError : string -> M unit)
         (st st' : State) (docPackage : JsonObject) (item : IDocItem) (member : string),
    getPackage reference reportError st = (Returned (Some docPackage), st') ->
    Js.ownProperty (exportName reference) (exports (document docPackage)) = Some item ->
    members item = None ->
    memberName reference = Some member -> member <> EmptyString ->
    getItem (Some reference) reportError st = (Thrown TypeError, st').
Proof.
  intros reference reportError st st' docPackage item member
         Hpackage Hexport Hmembers Hmember Hfull.
  exact (getItem_member_of_plain_export _ _ _ _ _ _ _ Hpackage Hexport Hmembers Hmember Hfull).
Qed.

Lemma getItem_member_without_members_witness :
  getItem (Some Scenario.fooHelperRender) record Scenario.fresh
  = (Thrown TypeError, Tour.fooLoaded).
Proof.
  apply (getItem_member_without_members Scenario.fooHelperRender record Scenario.fresh
           Tour.fooLoaded Scenario.firstFoo Scenario.helper "render").
  - vm_compute. reflexivity.
  - reflexivity.
  - reflexivity.
  - reflexivity.
  - discriminate.
Defined.

(** X7: for a reference that is not cached, with a non-empty packageName and
    a scopeName that is a string (possibly empty), when the manifest is not on
    disk [getItem] makes one existence probe, tells the callback once that the
    package was not found and returns undefined; nothing is read and nothing
    is cached. *)
Theorem getItem_package_not_found :
  forall (reference : IApiDefinitionReference) (st : State) (scope : string),
    scopeName reference = Some scope ->
    packageName reference <> EmptyString ->
    cacheOf st !! cachePackageName reference = None ->
    files (world st)
      !! specManifestPath (_projectFolder (this st)) scope (packageName reference) = None ->
    getItem (Some reference) record st
    = (Returned Js.Absent,
       logged (Reported (notFoundMessage reference))
         (logged (ExistsSync (specManifestPath (_projectFolder (this st)) scope
                                (packageName reference))) st)).
Proof.
  intros reference st scope Hscope Hname Hmiss Hgone.
  apply getItem_no_package.
  rewrite (getPackage_probe reference record st _ Hmiss Hname
             (join_manifestSegments _ _ _ Hscope)).
  rewrite joinStrings_single.
  fold (specManifestPath (_projectFolder (this st)) scope (packageName reference)).
  rewrite Hgone. reflexivity.
Qed.

Lemma getItem_package_not_found_witness :
  getItem (Some Scenario.missingPackage) record Scenario.fresh
  = (Returned Js.Absent,
     logged (Reported (notFoundMessage Scenario.missingPackage))
       (logged (ExistsSync "/proj/node_modules/nope/dist/nope.api.json") Scenario.fresh)).
Proof.
  apply (getItem_package_not_found Scenario.missingPackage Scenario.fresh EmptyString).
  - reflexivity.
  - discriminate.
  - vm_compute. reflexivity.
  - vm_compute. reflexivity.
Defined.

(** X8: a cache hit is unconditional: when the lookup key of the reference is
    cached, [getPackage] returns the cached object whatever is on disk and
    whatever the callback is, and neither [getPackage] nor [getItem] changes
    the state (no file access, no report, no cache write). *)
Theorem getPackage_cache_hit :
  forall (reference : IApiDefinitionReference) (reportError : string -> M unit)
         (st : State) (docPackage : JsonObject),
    cacheOf st !! cachePackageName reference = Some docPackage ->
    getPackage reference reportError st = (Returned (Some docPackage), st)
    /\ snd (getItem (Some reference) reportError st) = st.
Proof.
  intros reference reportError st docPackage Hcached.
  pose proof (getPackage_cached reference reportError st docPackage Hcached) as Hrun.
  split; [exact Hrun |]. rewrite getItem_state, Hrun. reflexivity.
Qed.

Lemma getPackage_cache_hit_witness :
  getPackage Scenario.unscopedFoo record Tour.fooLoaded
    = (Returned (Some Scenario.firstFoo), Tour.fooLoaded)
  /\ snd (getItem (Some Scenario.unscopedFoo) record Tour.fooLoaded) = Tour.fooLoaded.
Proof.
  apply (getPackage_cache_hit Scenario.unscopedFoo record Tour.fooLoaded Scenario.firstFoo).
  vm_compute. reflexivity.
Defined.

(** X9: for a manifest that conforms to the schema, [loadPackageIntoCache]
    reads the manifest and then the schema, returns the newly parsed object
    and stores that same object under the store key of the path: a lookup of
    that key then yields it, and no other key is touched. *)
Theorem loadPackageIntoCache_stores :
  forall (path : string) (st : State) (doc : IDocPackage)
         (schemaVerdict : option string) (schemaDoc : IDocPackage) (key : string),
    files (world st) !! path = Some (Json None doc) ->
    files (world st) !! schemaPath st = Some (Json schemaVerdict schemaDoc) ->
    storeKey path = Some key ->
    fst (loadPackageIntoCache path st)
      = Returned {| oid := nextOid (world st); schemaError := None; document := doc |}
    /\ cacheOf (snd (loadPackageIntoCache path st)) !! key
       = Some {| oid := nextOid (world st); schemaError := None; document := doc |}
    /\ (forall other, other <> key ->
                      cacheOf (snd (loadPackageIntoCache path st)) !! other
                      = cacheOf st !! other)
    /\ traceOf (snd (loadPackageIntoCache path st))
       = traceOf st ++ [ReadFile path; ReadFile (schemaPath st)].
Proof.
  intros path st doc schemaVerdict schemaDoc key Hfile Hschema Hkey.
  destruct (conforming_run path st doc schemaVerdict schemaDoc key Hfile Hschema Hkey)
    as [st' [Hrun [Hcache Htrace]]].
  rewrite Hrun. cbn [fst snd]. rewrite Hcache.
  split; [reflexivity |]. split; [apply lookup_insert_eq |].
  split; [| exact Htrace].
  intros other Hother. apply lookup_insert_ne. congruence.
Qed.

Lemma loadPackageIntoCache_stores_witness :
  fst (loadPackageIntoCache "/proj/node_modules/foo/dist/foo.api.json" Scenario.fresh)
    = Returned Scenario.firstFoo
  /\ cacheOf (snd (loadPackageIntoCache "/proj/node_modules/foo/dist/foo.api.json"
                     Scenario.fresh)) !! "foo"
     = Some Scenario.firstFoo.
Proof.
  destruct (loadPackageIntoCache_stores
              "/proj/node_modules/foo/dist/foo.api.json" Scenario.fresh Scenario.fooPackage
              (Some "not an api file") Scenario.emptyDocument "foo") as [H1 [H2 _]].
  - vm_compute. reflexivity.
  - vm_compute. reflexivity.
  - reflexivity.
  - split; [exact H1 | exact H2].
Defined.

(** X10: the store key of line 152 is defined for every path and is the part
    of the path's base name before the first dot: it holds no dot, and the
    base name is the key itself or the key, a dot, and a rest.  So it begins
    the base name and holds no slash either. *)
Theorem storeKey_prefix :
  forall path : string,
  exists key : string,
    storeKey path = Some key
    /\ Js.startsWith key (Path.basename path) = true
    /\ charFree "." key = true
    /\ slashFree key = true
    /\ (Path.basename path = key
        \/ exists rest : string, Path.basename path = key +:+ String "." rest).
Proof.
  intros path.
  destruct (split_head_free "." (Path.basename path)) as [piece [pieces [Hsplit Hfree]]].
  exists piece. unfold storeKey. rewrite Hsplit.
  split; [reflexivity |]. split; [exact (split_head_prefix _ _ _ _ Hsplit) |].
  split; [exact Hfree |]. split; [| exact (split_head_cut _ _ _ _ Hsplit)].
  apply (storeKey_slashFree path). unfold storeKey. rewrite Hsplit. reflexivity.
Qed.

(** X11: for the manifest path that [getPackage] computes, whatever the
    project folder and the scope name, the store key is the package name up
    to its first dot; it is the package name itself when the name has no
    dot. *)
Theorem manifest_store_key :
  forall projectRoot scope package : string,
    slashFree package = true ->
    storeKey (specManifestPath projectRoot scope package) = Js.shift (Js.split "." package)
    /\ (charFree "." package = true ->
        storeKey (specManifestPath projectRoot scope package) = Some package).
Proof.
  intros projectRoot scope package Hfree.
  pose proof (storeKey_manifest projectRoot scope package Hfree) as H.
  split; [exact H |]. intros Hdots. rewrite H, (split_charFree _ _ Hdots). reflexivity.
Qed.

Lemma manifest_store_key_witness :
  storeKey (specManifestPath "/proj" "@microsoft" "sp-core-library.beta")
    = Some "sp-core-library".
Proof.
  destruct (manifest_store_key "/proj" "@microsoft" "sp-core-library.beta") as [H _].
  - reflexivity.
  - rewrite H. reflexivity.
Defined.

(** X12: for a reference without scope (scopeName absent or empty) whose
    packageName has no dot and no slash, a package that [getPackage] has
    returned is cached under the lookup key of the reference.  The same call
    again, with any callback, returns the same object and leaves the state as
    it is; and after any further calls of the three methods [getPackage]
    still answers the reference from the cache and leaves the state as it is
    (with the object that then sits under the key, which a later load of a
    package of the same name may have replaced). *)
Theorem getPackage_simple_name_cached :
  forall (reference : IApiDefinitionReference) (reportError reportError' : string -> M unit)
         (st st' : State) (docPackage : JsonObject),
    Js.truthy (scopeName reference) = false ->
    slashFree (packageName reference) = true ->
    charFree "." (packageName reference) = true ->
    getPackage reference reportError st = (Returned (Some docPackage), st') ->
    getPackage reference reportError' st' = (Returned (Some docPackage), st')
    /\ forall calls : list Call,
       exists later : JsonObject,
         getPackage reference reportError' (performAll calls st')
         = (Returned (Some later), performAll calls st').
Proof.
  intros reference reportError reportError' st st' docPackage Hscope Hslash Hdots Hrun.
  assert (Hcached : cacheOf st' !! cachePackageName reference = Some docPackage).
  { apply (getPackage_cached_when_keys_agree reference reportError st); [| exact Hrun].
    intros manifest Hjoin.
    destruct (scopeName reference) as [scope|] eqn:Hs.
    - rewrite (join_manifestSegments _ _ _ Hs) in Hjoin. inversion Hjoin.
      fold (specManifestPath (_projectFolder (this st)) scope (packageName reference)).
      rewrite (storeKey_manifest _ _ _ Hslash), (split_charFree _ _ Hdots).
      unfold cachePackageName. rewrite Hs, Hscope. reflexivity.
    - rewrite (join_manifestSegments_undefined _ _ Hs) in Hjoin. discriminate. }
  split; [apply getPackage_cached, Hcached |].
  intros calls.
  assert (Hlater : is_Some (cacheOf (performAll calls st') !! cachePackageName reference)).
  { apply (performAll_follows
             (fun s => is_Some (cacheOf s !! cachePackageName reference))).
    - intros s s' Hfollows. apply follows_keys_kept, Hfollows.
    - rewrite Hcached. eexists. reflexivity. }
  destruct Hlater as [later Hlater]. exists later. apply getPackage_cached, Hlater.
Qed.

Lemma getPackage_simple_name_cached_witness :
  getPackage Scenario.unscopedFoo record Tour.fooLoaded
  = (Returned (Some Scenario.firstFoo), Tour.fooLoaded).
Proof.
  destruct (getPackage_simple_name_cached Scenario.unscopedFoo record record
              Scenario.fresh Tour.fooLoaded Scenario.firstFoo) as [H _].
  - reflexivity.
  - reflexivity.
  - reflexivity.
  - vm_compute. reflexivity.
  - exact H.
Defined.

(** X13: on a loader built by the constructor, after any sequence of calls of
    the three methods, a reference finds its lookup key in the cache only if
    it has no scope and its packageName has no slash and no dot: packages
    with a scope or with a dot in the name are never served from the cache. *)
Theorem new_loader_caches_simple_names_only :
  forall (folder : string) (w : World) (loader : DocItemLoader) (calls : list Call)
         (reference : IApiDefinitionReference),
    fst (construct folder w) = Returned loader ->
    is_Some (cacheOf (performAll calls {| this := loader; world := snd (construct folder w) |})
               !! cachePackageName reference) ->
    Js.truthy (scopeName reference) = false
    /\ slashFree (packageName reference) = true
    /\ charFree "." (packageName reference) = true.
Proof.
  intros folder w loader calls reference Hbuilt Hcached.
  assert (Hempty : _cache loader = ∅).
  { unfold construct in Hbuilt. cbv zeta in Hbuilt.
    destruct (negb _) in Hbuilt; cbn [fst] in Hbuilt; inversion Hbuilt. reflexivity. }
  assert (Hsimple : storedKeysSimple
                      (performAll calls {| this := loader; world := snd (construct folder w) |})).
  { apply (performAll_follows storedKeysSimple follows_keys_simple).
    intros key [obj Hobj]. unfold cacheOf in Hobj. cbn [this] in Hobj.
    rewrite Hempty, lookup_empty in Hobj. discriminate. }
  destruct (Hsimple _ Hcached) as [Hslash Hdots].
  unfold cachePackageName in Hslash, Hdots.
  destruct (Js.truthy (scopeName reference)).
  - change (Js.toString (scopeName reference) +:+ "/" +:+ packageName reference)
      with (Js.toString (scopeName reference) +:+ String "/" (packageName reference)) in Hslash.
    rewrite slashFree_with_slash in Hslash. discriminate.
  - split; [reflexivity |]. split; assumption.
Qed.

Lemma new_loader_caches_simple_names_only_witness :
  Js.truthy (scopeName Scenario.unscopedFoo) = false
  /\ slashFree (packageName Scenario.unscopedFoo) = true
  /\ charFree "." (packageName Scenario.unscopedFoo) = true.
Proof.
  apply (new_loader_caches_simple_names_only "/proj" Scenario.world0 (this Scenario.fresh)
           Tour.calls Scenario.unscopedFoo).
  - vm_compute. reflexivity.
  - vm_compute. eexists. reflexivity.
Defined.

(** X14: the cache has no eviction: a key that is cached stays cached through
    any sequence of calls of the three methods. *)
Theorem cache_never_evicts :
  forall (calls : list Call) (st : State) (key : string),
    is_Some (cacheOf st !! key) -> is_Some (cacheOf (performAll calls st) !! key).
Proof.
  intros calls st key.
  apply (performAll_follows (fun s => is_Some (cacheOf s !! key))).
  intros s s' Hfollows. apply follows_keys_kept, Hfollows.
Qed.

Lemma cache_never_evicts_witness :
  is_Some (cacheOf (performAll Tour.calls Tour.fooLoaded) !! "foo").
Proof.
  apply (cache_never_evicts Tour.calls Tour.fooLoaded "foo").
  vm_compute. eexists. reflexivity.
Defined.

(** X15: no sequence of calls of the three methods writes to the disk or
    changes the project folder the loader was built with. *)
Theorem calls_leave_disk_and_folder :
  forall (calls : list Call) (st : State),
    files (world (performAll calls st)) = files (world st)
    /\ dirname (world (performAll calls st)) = dirname (world st)
    /\ _projectFolder (this (performAll calls st)) = _projectFolder (this st).
Proof.
  intros calls st.
  apply (performAll_follows
           (fun s => files (world s) = files (world st)
                     /\ dirname (world s) = dirname (world st)
                     /\ _projectFolder (this s) = _projectFolder (this st)));
    [| repeat split].
  intros s s' [F [D [P _]]] [F0 [D0 P0]]. rewrite F, D, P. repeat split; assumption.
Qed.

(** X16: for a reference that is not cached, with a non-empty packageName
    and a scopeName that is a string (possibly empty), when the manifest
    exists but is not JSON the parse error of [JsonFile.loadJsonFile] passes
    through [getPackage] and [getItem] uncaught; the callback is not called
    and the loader is unchanged. *)
Theorem getPackage_unparsable_manifest :
  forall (reference : IApiDefinitionReference) (reportError : string -> M unit)
         (st : State) (scope : string),
    scopeName reference = Some scope ->
    packageName reference <> EmptyString ->
    cacheOf st !! cachePackageName reference = None ->
    files (world st)
      !! specManifestPath (_projectFolder (this st)) scope (packageName reference)
      = Some NotJson ->
    getPackage reference reportError st
      = (Thrown (JsonParseError
                   (specManifestPath (_projectFolder (this st)) scope (packageName reference))),
         logged (ReadFile (specManifestPath (_projectFolder (this st)) scope
                             (packageName reference)))
           (logged (ExistsSync (specManifestPath (_projectFolder (this st)) scope
                                  (packageName reference))) st))
    /\ fst (getItem (Some reference) reportError st)
       = Thrown (JsonParseError
                   (specManifestPath (_projectFolder (this st)) scope (packageName reference))).
Proof.
  intros reference reportError st scope Hscope Hname Hmiss Hfile.
  assert (Hrun : getPackage reference reportError st
                 = (Thrown (JsonParseError
                              (specManifestPath (_projectFolder (this st)) scope
                                 (packageName reference))),
                    logged (ReadFile (specManifestPath (_projectFolder (this st)) scope
                                        (packageName reference)))
                      (logged (ExistsSync (specManifestPath (_projectFolder (this st)) scope
                                             (packageName reference))) st))).
  { rewrite (getPackage_probe reference reportError st _ Hmiss Hname
               (join_manifestSegments _ _ _ Hscope)).
    rewrite joinStrings_single.
    fold (specManifestPath (_projectFolder (this st)) scope (packageName reference)).
    rewrite Hfile. rewrite bool_decide_eq_true_2 by (eexists; reflexivity).
    apply bind_thrown. unfold loadPackageIntoCache. apply bind_thrown.
    apply loadJsonFile_malformed. exact Hfile. }
  split; [exact Hrun |]. rewrite (getItem_package_throws _ _ _ _ _ Hrun). reflexivity.
Qed.

Lemma getPackage_unparsable_manifest_witness :
  fst (getItem (Some Tour.brokenPackage) record Scenario.fresh)
  = Thrown (JsonParseError "/proj/node_modules/broken/dist/broken.api.json").
Proof.
  destruct (getPackage_unparsable_manifest Tour.brokenPackage record Scenario.fresh EmptyString)
    as [_ H].
  - reflexivity.
  - discriminate.
  - vm_compute. reflexivity.
  - vm_compute. reflexivity.
  - exact H.
Defined.

(** X17: on a loader built by the constructor, after any sequence of calls of
    the three methods, no package object is cached under two keys: two cache
    entries that hold the same object are the same entry. *)
Theorem cached_objects_not_shared :
  forall (folder : string) (w : World) (loader : DocItemLoader) (calls : list Call)
         (key key' : string) (docPackage docPackage' : JsonObject),
    fst (construct folder w) = Returned loader ->
    cacheOf (performAll calls {| this := loader; world := snd (construct folder w) |}) !! key
      = Some docPackage ->
    cacheOf (performAll calls {| this := loader; world := snd (construct folder w) |}) !! key'
      = Some docPackage' ->
    oid docPackage = oid docPackage' ->
    key = key'.
Proof.
  intros folder w loader calls key key' docPackage docPackage' Hbuilt.
  assert (Hempty : _cache loader = ∅).
  { unfold construct in Hbuilt. cbv zeta in Hbuilt.
    destruct (negb _) in Hbuilt; cbn [fst] in Hbuilt; inversion Hbuilt. reflexivity. }
  assert (Hsound : cacheSound
                     (performAll calls {| this := loader; world := snd (construct folder w) |})).
  { apply (performAll_follows cacheSound follows_sound).
    split.
    - intros k obj Hobj. unfold cacheOf in Hobj. cbn [this] in Hobj.
      rewrite Hempty, lookup_empty in Hobj. discriminate.
    - intros k k' obj obj' Hobj. unfold cacheOf in Hobj. cbn [this] in Hobj.
      rewrite Hempty, lookup_empty in Hobj. discriminate. }
  destruct Hsound as [_ Hinj]. apply Hinj.
Qed.

Lemma cached_objects_not_shared_witness : "foo" = "foo".
Proof.
  apply (cached_objects_not_shared "/proj" Scenario.world0 (this Scenario.fresh) Tour.calls
           "foo" "foo" Tour.lastFoo Tour.lastFoo).
  - vm_compute. reflexivity.
  - vm_compute. reflexivity.
  - vm_compute. reflexivity.
  - reflexivity.
Defined.

(** X18: one call of [getPackage] tells the callback at most one message,
    the not-found message of the reference, and only when it returns
    undefined; it never reports and returns a package. *)
Theorem getPackage_reports_at_most_once :
  forall (reference : IApiDefinitionReference) (st : State),
    reports (traceOf (snd (getPackage reference record st))) = reports (traceOf st)
    \/ (reports (traceOf (snd (getPackage reference record st)))
          = reports (traceOf st) ++ [notFoundMessage reference]
        /\ fst (getPackage reference record st) = Returned None).
Proof. intros reference st. apply getPackage_reports. Qed.

(** X19: every package object that [getPackage] returns is in the cache when
    the call ends, under some key (the lookup key of the reference on a hit,
    the store key of the manifest after a load). *)
Theorem getPackage_result_is_cached :
  forall (reference : IApiDefinitionReference) (reportError : string -> M unit)
         (st st' : State) (docPackage : JsonObject),
    getPackage reference reportError st = (Returned (Some docPackage), st') ->
    exists key : string, cacheOf st' !! key = Some docPackage.
Proof.
  intros reference reportError st st' docPackage H.
  destruct (cacheOf st !! cachePackageName reference) as [cached|] eqn:Hcache.
  { rewrite (getPackage_cached _ _ _ _ Hcache) in H. inversion H; subst.
    exists (cachePackageName reference). exact Hcache. }
  destruct (String.eqb (packageName reference) EmptyString) eqn:Hname.
  { apply String.eqb_eq in Hname.
    rewrite (getPackage_local _ _ _ Hcache Hname) in H. discriminate. }
  apply String.eqb_neq in Hname.
  destruct (Path.join (manifestSegments (_projectFolder (this st)) reference))
    as [manifest|] eqn:Hjoin.
  2:{ rewrite (getPackage_join_throws _ _ _ Hcache Hname Hjoin) in H. discriminate. }
  rewrite (getPackage_probe _ _ _ _ Hcache Hname Hjoin) in H.
  destruct (bool_decide _) in H; unfold bind in H.
  - destruct (loadPackageIntoCache manifest _) as [[loaded|e] st1] eqn:Hload; [| discriminate].
    cbn [ret] in H. inversion H; subst.
    destruct (loadPackageIntoCache_returns _ _ _ _ Hload) as [key [_ Hcached]].
    exists key. rewrite Hcached. apply lookup_insert_eq.
  - destruct (reportError (notFoundMessage reference) _) as [[[]|e] st1];
      cbn [ret] in H; discriminate.
Qed.

Lemma getPackage_result_is_cached_witness :
  exists key : string, cacheOf Tour.fooLoaded !! key = Some Scenario.firstFoo.
Proof.
  apply (getPackage_result_is_cached Scenario.unscopedFoo record Scenario.fresh
           Tour.fooLoaded Scenario.firstFoo).
  vm_compute. reflexivity.
Defined.

(** X20: [loadPackageIntoCache] does not consult the cache: called again on
    the same conforming manifest it parses a new object, with a new identity,
    and puts it in the place of the first one. *)
Theorem loadPackageIntoCache_reloads :
  forall (path : string) (st : State) (doc : IDocPackage)
         (schemaVerdict : option string) (schemaDoc : IDocPackage) (key : string),
    files (world st) !! path = Some (Json None doc) ->
    files (world st) !! schemaPath st = Some (Json schemaVerdict schemaDoc) ->
    storeKey path = Some key ->
    fst (loadPackageIntoCache path (snd (loadPackageIntoCache path st)))
      = Returned {| oid := nextOid (world st) + 2; schemaError := None; document := doc |}
    /\ cacheOf (snd (loadPackageIntoCache path (snd (loadPackageIntoCache path st)))) !! key
       = Some {| oid := nextOid (world st) + 2; schemaError := None; document := doc |}.
Proof.
  intros path st doc schemaVerdict schemaDoc key Hfile Hschema Hkey.
  destruct (conforming_run path st doc schemaVerdict schemaDoc key Hfile Hschema Hkey)
    as [st1 [Hrun1 _]].
  destruct (loadPackageIntoCache_step path st) as [F [D [_ [_ Hcases]]]].
  rewrite Hrun1 in F, D, Hcases. cbn [fst snd] in F, D, Hcases.
  assert (Hnext : nextOid (world st1) = nextOid (world st) + 2).
  { destruct Hcases as [[_ Hno] | [k [d [_ [_ [_ [_ Hn]]]]]]]; [| exact Hn].
    exfalso. exact (Hno _ eq_refl). }
  rewrite Hrun1. cbn [snd].
  assert (Hfile1 : files (world st1) !! path = Some (Json None doc)) by (rewrite F; exact Hfile).
  assert (Hschema1 : files (world st1) !! schemaPath st1 = Some (Json schemaVerdict schemaDoc)).
  { unfold schemaPath. rewrite F, D. exact Hschema. }
  destruct (conforming_run path st1 doc schemaVerdict schemaDoc key Hfile1 Hschema1 Hkey)
    as [st2 [Hrun2 [Hcache2 _]]].
  rewrite Hrun2. cbn [fst snd]. rewrite Hcache2, Hnext.
  split; [reflexivity | apply lookup_insert_eq].
Qed.

Lemma loadPackageIntoCache_reloads_witness :
  fst (loadPackageIntoCache "/proj/node_modules/foo/dist/foo.api.json"
         (snd (loadPackageIntoCache "/proj/node_modules/foo/dist/foo.api.json" Scenario.fresh)))
  = Returned {| oid := 2; schemaError := None; document := Scenario.fooPackage |}.
Proof.
  destruct (loadPackageIntoCache_reloads
              "/proj/node_modules/foo/dist/foo.api.json" Scenario.fresh Scenario.fooPackage
              (Some "not an api file") Scenario.emptyDocument "foo") as [H _].
  - vm_compute. reflexivity.
  - vm_compute. reflexivity.
  - reflexivity.
  - exact H.
Defined.
